(** * BatchRender: a model of the addon's operators

    The addon (src/BatchRender.py) is a set of operators that run inside a
    host 3D application.  This development embeds the operators as functions
    over an explicit picture of the host state they read and write:

    - [bpy.data.objects] is a finite map from object names to the two
      visibility flags the addon touches;
    - the scene properties registered by [register()] form the record
      [Scene];
    - the attributes the batch operator keeps on [self] form the record
      [Self];
    - every call of [bpy.ops.render.render] and of [self.report] is appended
      to a log, so that statements about "which render was started when" are
      statements about that log.

    What the host computes on its own (path helpers, floating point, the
    clock) is kept abstract in the class [Host]. *)

From stdpp Require Import base option list sorting strings pretty gmap fin_maps.
From Stdlib Require Import Ascii ZArith QArith Qround Lia.

Local Close Scope Q_scope.
Local Open Scope string_scope.
Local Open Scope nat_scope.

(** ** Python string helpers

    A Python [str] is modelled by its UTF-8 encoding: a [string] is the
    sequence of its bytes, and a character of the ASCII range is one
    byte. *)

(** [str.isspace] on one code point: the white space of the Unicode
    character database, that is U+0009 to U+000D, U+001C to U+0020, U+0085,
    U+00A0, U+1680, U+2000 to U+200A, U+2028, U+2029, U+202F, U+205F and
    U+3000. *)
Definition is_space (cp : N) : bool :=
  (((0x9 <=? cp) && (cp <=? 0xD)) || ((0x1C <=? cp) && (cp <=? 0x20))
   || (cp =? 0x85) || (cp =? 0xA0) || (cp =? 0x1680)
   || ((0x2000 <=? cp) && (cp <=? 0x200A)) || (cp =? 0x2028)
   || (cp =? 0x2029) || (cp =? 0x202F) || (cp =? 0x205F)
   || (cp =? 0x3000))%N.

(** The six payload bits of a UTF-8 continuation byte [10xxxxxx]. *)
Definition continuation (c : ascii) : option N :=
  let b := N_of_ascii c in
  if ((0x80 <=? b) && (b <? 0xC0))%N then Some (b - 0x80)%N else None.

(** The first code point of [s] and the bytes after it; [None] when [s] is
    empty or does not start with a well-formed UTF-8 sequence (which the
    encoding of a [str] always does). *)
Definition decode_first (s : string) : option (N * string) :=
  match s with
  | EmptyString => None
  | String c0 r0 =>
      let b0 := N_of_ascii c0 in
      if (b0 <? 0x80)%N then Some (b0, r0)
      else if ((0xC0 <=? b0) && (b0 <? 0xE0))%N then
        match r0 with
        | String c1 r1 =>
            match continuation c1 with
            | Some x1 =>
                let cp := ((b0 - 0xC0) * 0x40 + x1)%N in
                if (0x80 <=? cp)%N then Some (cp, r1) else None
            | None => None
            end
        | EmptyString => None
        end
      else if ((0xE0 <=? b0) && (b0 <? 0xF0))%N then
        match r0 with
        | String c1 (String c2 r2) =>
            match continuation c1, continuation c2 with
            | Some x1, Some x2 =>
                let cp := ((b0 - 0xE0) * 0x1000 + x1 * 0x40 + x2)%N in
                if (0x800 <=? cp)%N then Some (cp, r2) else None
            | _, _ => None
            end
        | _ => None
        end
      else if ((0xF0 <=? b0) && (b0 <? 0xF8))%N then
        match r0 with
        | String c1 (String c2 (String c3 r3)) =>
            match continuation c1, continuation c2, continuation c3 with
            | Some x1, Some x2, Some x3 =>
                let cp :=
                  ((b0 - 0xF0) * 0x40000 + x1 * 0x1000 + x2 * 0x40 + x3)%N in
                if (0x10000 <=? cp)%N then Some (cp, r3) else None
            | _, _, _ => None
            end
        | _ => None
        end
      else None
  end.

(** What follows the first character of [s] when that character is white
    space. *)
Definition drop_space (s : string) : option string :=
  match decode_first s with
  | Some (cp, r) => if is_space cp then Some r else None
  | None => None
  end.

(** [s.lstrip()]: leading white space is dropped character by character.
    Every step removes at least one byte, so [fuel] need not exceed the
    length of [s] ([lstrip_rec_fuel]). *)
Fixpoint lstrip_rec (fuel : nat) (s : string) : string :=
  match fuel with
  | O => s
  | S fuel' =>
      match drop_space s with
      | Some r => lstrip_rec fuel' r
      | None => s
      end
  end.

Definition lstrip (s : string) : string := lstrip_rec (String.length s) s.

(** [s.rstrip()]: the result ends where only white space follows.  A
    position inside a multi-byte character is never such a place, since no
    white space character starts with a continuation byte. *)
Fixpoint rstrip (s : string) : string :=
  match s with
  | String c r =>
      match lstrip s with
      | EmptyString => EmptyString
      | _ => String c (rstrip r)
      end
  | EmptyString => EmptyString
  end.

(** [s.strip()] *)
Definition strip (s : string) : string := rstrip (lstrip s).

(** [s.endswith(t)] *)
Definition endswith (s t : string) : bool :=
  String.prefix (String.rev t) (String.rev s).

(** ['.' in s] *)
Fixpoint contains_dot (s : string) : bool :=
  match s with
  | String c r => if Ascii.eqb c "."%char then true else contains_dot r
  | EmptyString => false
  end.

(** [s.rsplit('.', 1)[0]] for an [s] that contains a dot: what comes before
    the last dot.  [None] when there is no dot. *)
Fixpoint before_last_dot (s : string) : option string :=
  match s with
  | String c r =>
      match before_last_dot r with
      | Some h => Some (String c h)
      | None => if Ascii.eqb c "."%char then Some EmptyString else None
      end
  | EmptyString => None
  end.

Definition rsplit_dot_head (s : string) : string :=
  default s (before_last_dot s).

Fixpoint zeros (n : nat) : string :=
  match n with
  | O => EmptyString
  | S k => String "0"%char (zeros k)
  end.

(** [f"{z:0Wd}"]: decimal digits, sign first, zero-filled to width [W]. *)
Definition format_0d (width : nat) (z : Z) : string :=
  if (z <? 0)%Z then
    let d := pretty (Z.abs_N z) in
    "-" +:+ zeros (width - 1 - String.length d) +:+ d
  else
    let d := pretty (Z.to_N z) in
    zeros (width - String.length d) +:+ d.

(** ** File extensions *)

(** The dictionary of [RENDER_OT_single_object.set_file_extension]. *)
Definition single_extension_items : list (string * string) :=
  [ ("PNG", ".png"); ("JPEG", ".jpg"); ("OPEN_EXR", ".exr");
    ("TIFF", ".tiff"); ("BMP", ".bmp"); ("TARGA", ".tga") ].

(** The three entries that only [RENDER_OT_batch_render.get_file_extension]
    has. *)
Definition batch_only_extension_items : list (string * string) :=
  [ ("IRIS", ".rgb"); ("CINEON", ".cin"); ("DPX", ".dpx") ].

Definition single_extensions : gmap string string :=
  list_to_map single_extension_items.

Definition batch_extensions : gmap string string :=
  list_to_map (single_extension_items ++ batch_only_extension_items).

(** [extensions.get(file_format, '.png')] in [set_file_extension]. *)
Definition single_extension (file_format : string) : string :=
  default ".png" (single_extensions !! file_format).

(** [RENDER_OT_batch_render.get_file_extension], as a function of
    [scene.render.image_settings.file_format]. *)
Definition get_file_extension (file_format : string) : string :=
  default ".png" (batch_extensions !! file_format).

(** [RENDER_OT_single_object.set_file_extension], as a function from the
    format and the old [scene.render.filepath] to the new one. *)
Definition set_file_extension (file_format filepath : string) : string :=
  let extension := single_extension file_format in
  if endswith filepath extension then filepath
  else if contains_dot filepath then rsplit_dot_head filepath +:+ extension
  else filepath +:+ extension.

(** ** The batch list and its selection index *)

(** An entry of [scene.batch_render_objects]: the [obj] pointer of a
    [RENDER_PG_batch_object], [None] or the name of the object pointed to. *)
Definition BatchItem : Type := option string.

(** [collection.remove(index)] *)
Definition collection_remove {A} (index : nat) (l : list A) : list A :=
  delete index l.

(** [RENDER_OT_remove_from_batch.execute] on the pair of the list and
    [scene.batch_render_index]. *)
Definition remove_from_batch (objects : list BatchItem) (index : Z)
  : list BatchItem * Z :=
  if ((0 <=? index) && (index <? Z.of_nat (length objects)))%Z then
    let objects' := collection_remove (Z.to_nat index) objects in
    (objects',
     Z.min (Z.max 0 (index - 1)) (Z.of_nat (length objects') - 1))
  else (objects, index).


(** ** What the host provides

    Python floats, the path helpers of [bpy.path] and [os.path] are not part
    of the addon.  The operators only combine them, so they stay abstract:
    every statement below holds for any implementation of this interface. *)
Class Host := {
  float : Type;
  (** conversion of a Python [int] where a float is expected *)
  float_of_int : Z → float;
  (** [a / b] on two Python ints *)
  truediv : Z → Z → float;
  fmul : float → float → float;
  fsub : float → float → float;
  fdiv : float → float → float;
  (** [x // y] and [x % y] on floats *)
  ffloordiv : float → float → float;
  fmod : float → float → float;
  (** [int(x)] *)
  int_of_float : float → Z;
  (** [bpy.path.abspath], [bpy.path.clean_name], [os.path.join] *)
  abspath : string → string;
  clean_name : string → string;
  path_join : string → string → string
}.

(** The two flags of a [bpy.types.Object] that the addon reads and writes. *)
Record Visibility := {
  hide_viewport : bool;
  hide_render : bool
}.

Definition set_hide_viewport (b : bool) (v : Visibility) : Visibility :=
  {| hide_viewport := b; hide_render := hide_render v |}.

Definition set_hide_render (b : bool) (v : Visibility) : Visibility :=
  {| hide_viewport := hide_viewport v; hide_render := b |}.

(** Return values of an operator's [execute] and [modal]. *)
Inductive Result := CANCELLED | FINISHED | RUNNING_MODAL | PASS_THROUGH.

Inductive Level := ERROR | WARNING | INFO.

(** [event.type], as far as [modal] looks at it. *)
Inductive Event := TIMER | OTHER_EVENT.

(** One call of [bpy.ops.render.render('INVOKE_DEFAULT', write_still=True)]
    made by the batch operator: the list index being rendered, the object,
    the scene's filepath and every object's visibility at the moment of the
    call, and whether the call raised. *)
Record RenderCall := {
  rc_index : nat;
  rc_object : string;
  rc_filepath : string;
  rc_visibility : gmap string Visibility;
  rc_raised : bool
}.

(** What the file system answers to [RENDER_OT_batch_render.execute]. *)
Inductive Makedirs := MkOk | MkPermissionError | MkOtherError (msg : string).

Record FileSystem := {
  (** [os.path.exists] *)
  fs_exists : string → bool;
  (** the outcome of [os.makedirs] *)
  fs_makedirs : string → Makedirs;
  (** [os.access(path, os.W_OK)], asked after the directory was created *)
  fs_access_w : string → bool;
  (** [shutil.disk_usage(path).free], [None] when the call raises *)
  fs_disk_free : string → option Z
}.

Section Addon.
Context `{Host}.

(** The scene properties the addon registers, with the two render settings
    it uses. *)
Record Scene := {
  render_filepath : string;
  file_format : string;
  single_render_restore : bool;
  batch_render_objects : list BatchItem;
  batch_render_index : Z;
  batch_render_path : string;
  batch_render_prefix : string;
  batch_render_progress : float;
  batch_render_current_object : string;
  batch_render_status : string;
  batch_render_eta : string;
  batch_render_cancelled : bool
}.

(** The attributes of a [RENDER_OT_batch_render] instance. *)
Record Self := {
  _timer : bool;
  _current_index : nat;
  _visibility_states : gmap string Visibility;
  _original_filepath : string;
  _start_time : float;
  _total_objects : nat;
  _is_running : bool
}.

(** The host data the operator works on: [bpy.data.objects] and the
    scene. *)
Record Blender := {
  data_objects : gmap string Visibility;
  scene : Scene
}.

(** The state of one invocation of the operator: the host data, the
    operator instance, and the record of what the operator asked of the host
    since it was invoked (render calls and reports, oldest first). *)
Record State := {
  bl : Blender;
  self : Self;
  render_calls : list RenderCall;
  reports : list (Level * string)
}.

(** What one event of the host's loop lets the operator observe. *)
Record Oracle := {
  (** [bpy.app.is_job_running('RENDER')]; [None] when the call raises *)
  job_running : option bool;
  (** whether [bpy.ops.render.render] raises when asked to render entry [i] *)
  render_raises : nat → bool;
  (** [time.time()] *)
  now : float
}.

(** *** Field updates *)

Definition scene_set_filepath (v : string) (sc : Scene) : Scene :=
  {| render_filepath := v; file_format := file_format sc;
     single_render_restore := single_render_restore sc;
     batch_render_objects := batch_render_objects sc;
     batch_render_index := batch_render_index sc;
     batch_render_path := batch_render_path sc;
     batch_render_prefix := batch_render_prefix sc;
     batch_render_progress := batch_render_progress sc;
     batch_render_current_object := batch_render_current_object sc;
     batch_render_status := batch_render_status sc;
     batch_render_eta := batch_render_eta sc;
     batch_render_cancelled := batch_render_cancelled sc |}.

Definition scene_set_progress (v : float) (sc : Scene) : Scene :=
  {| render_filepath := render_filepath sc; file_format := file_format sc;
     single_render_restore := single_render_restore sc;
     batch_render_objects := batch_render_objects sc;
     batch_render_index := batch_render_index sc;
     batch_render_path := batch_render_path sc;
     batch_render_prefix := batch_render_prefix sc;
     batch_render_progress := v;
     batch_render_current_object := batch_render_current_object sc;
     batch_render_status := batch_render_status sc;
     batch_render_eta := batch_render_eta sc;
     batch_render_cancelled := batch_render_cancelled sc |}.

Definition scene_set_current_object (v : string) (sc : Scene) : Scene :=
  {| render_filepath := render_filepath sc; file_format := file_format sc;
     single_render_restore := single_render_restore sc;
     batch_render_objects := batch_render_objects sc;
     batch_render_index := batch_render_index sc;
     batch_render_path := batch_render_path sc;
     batch_render_prefix := batch_render_prefix sc;
     batch_render_progress := batch_render_progress sc;
     batch_render_current_object := v;
     batch_render_status := batch_render_status sc;
     batch_render_eta := batch_render_eta sc;
     batch_render_cancelled := batch_render_cancelled sc |}.

Definition scene_set_status (v : string) (sc : Scene) : Scene :=
  {| render_filepath := render_filepath sc; file_format := file_format sc;
     single_render_restore := single_render_restore sc;
     batch_render_objects := batch_render_objects sc;
     batch_render_index := batch_render_index sc;
     batch_render_path := batch_render_path sc;
     batch_render_prefix := batch_render_prefix sc;
     batch_render_progress := batch_render_progress sc;
     batch_render_current_object := batch_render_current_object sc;
     batch_render_status := v;
     batch_render_eta := batch_render_eta sc;
     batch_render_cancelled := batch_render_cancelled sc |}.

Definition scene_set_eta (v : string) (sc : Scene) : Scene :=
  {| render_filepath := render_filepath sc; file_format := file_format sc;
     single_render_restore := single_render_restore sc;
     batch_render_objects := batch_render_objects sc;
     batch_render_index := batch_render_index sc;
     batch_render_path := batch_render_path sc;
     batch_render_prefix := batch_render_prefix sc;
     batch_render_progress := batch_render_progress sc;
     batch_render_current_object := batch_render_current_object sc;
     batch_render_status := batch_render_status sc;
     batch_render_eta := v;
     batch_render_cancelled := batch_render_cancelled sc |}.

Definition scene_set_cancelled (v : bool) (sc : Scene) : Scene :=
  {| render_filepath := render_filepath sc; file_format := file_format sc;
     single_render_restore := single_render_restore sc;
     batch_render_objects := batch_render_objects sc;
     batch_render_index := batch_render_index sc;
     batch_render_path := batch_render_path sc;
     batch_render_prefix := batch_render_prefix sc;
     batch_render_progress := batch_render_progress sc;
     batch_render_current_object := batch_render_current_object sc;
     batch_render_status := batch_render_status sc;
     batch_render_eta := batch_render_eta sc;
     batch_render_cancelled := v |}.

Definition self_set_timer (v : bool) (s : Self) : Self :=
  {| _timer := v; _current_index := _current_index s;
     _visibility_states := _visibility_states s;
     _original_filepath := _original_filepath s;
     _start_time := _start_time s; _total_objects := _total_objects s;
     _is_running := _is_running s |}.

Definition self_set_current_index (v : nat) (s : Self) : Self :=
  {| _timer := _timer s; _current_index := v;
     _visibility_states := _visibility_states s;
     _original_filepath := _original_filepath s;
     _start_time := _start_time s; _total_objects := _total_objects s;
     _is_running := _is_running s |}.

Definition self_set_visibility_states (v : gmap string Visibility) (s : Self)
  : Self :=
  {| _timer := _timer s; _current_index := _current_index s;
     _visibility_states := v;
     _original_filepath := _original_filepath s;
     _start_time := _start_time s; _total_objects := _total_objects s;
     _is_running := _is_running s |}.

Definition self_set_original_filepath (v : string) (s : Self) : Self :=
  {| _timer := _timer s; _current_index := _current_index s;
     _visibility_states := _visibility_states s;
     _original_filepath := v;
     _start_time := _start_time s; _total_objects := _total_objects s;
     _is_running := _is_running s |}.

Definition self_set_start_time (v : float) (s : Self) : Self :=
  {| _timer := _timer s; _current_index := _current_index s;
     _visibility_states := _visibility_states s;
     _original_filepath := _original_filepath s;
     _start_time := v; _total_objects := _total_objects s;
     _is_running := _is_running s |}.

Definition self_set_total_objects (v : nat) (s : Self) : Self :=
  {| _timer := _timer s; _current_index := _current_index s;
     _visibility_states := _visibility_states s;
     _original_filepath := _original_filepath s;
     _start_time := _start_time s; _total_objects := v;
     _is_running := _is_running s |}.

Definition self_set_is_running (v : bool) (s : Self) : Self :=
  {| _timer := _timer s; _current_index := _current_index s;
     _visibility_states := _visibility_states s;
     _original_filepath := _original_filepath s;
     _start_time := _start_time s; _total_objects := _total_objects s;
     _is_running := v |}.

Definition on_scene (f : Scene → Scene) (st : State) : State :=
  {| bl := {| data_objects := data_objects (bl st);
              scene := f (scene (bl st)) |};
     self := self st;
     render_calls := render_calls st; reports := reports st |}.

Definition on_objects
  (f : gmap string Visibility → gmap string Visibility) (st : State) : State :=
  {| bl := {| data_objects := f (data_objects (bl st));
              scene := scene (bl st) |};
     self := self st;
     render_calls := render_calls st; reports := reports st |}.

Definition on_self (f : Self → Self) (st : State) : State :=
  {| bl := bl st; self := f (self st);
     render_calls := render_calls st; reports := reports st |}.

(** [self.report({level}, msg)] *)
Definition report (level : Level) (msg : string) (st : State) : State :=
  {| bl := bl st; self := self st;
     render_calls := render_calls st;
     reports := reports st ++ [(level, msg)] |}.

(** The host is asked to render: the call is recorded with what the host
    sees at that moment. *)
Definition call_render (index : nat) (name : string) (raised : bool)
  (st : State) : State :=
  {| bl := bl st; self := self st;
     render_calls :=
       render_calls st ++
       [ {| rc_index := index; rc_object := name;
            rc_filepath := render_filepath (scene (bl st));
            rc_visibility := data_objects (bl st);
            rc_raised := raised |} ];
     reports := reports st |}.

(** ** RENDER_OT_batch_render *)

(** The class attributes, which a fresh operator instance starts from. *)
Definition self_init : Self :=
  {| _timer := false; _current_index := 0; _visibility_states := ∅;
     _original_filepath := EmptyString; _start_time := float_of_int 0;
     _total_objects := 0; _is_running := false |}.

(** The loop of [execute] that fills [self._visibility_states]. *)
Definition save_visibility (objects : gmap string Visibility)
  : gmap string Visibility :=
  map_fold
    (λ name obj states,
       <[name := {| hide_viewport := hide_viewport obj;
                    hide_render := hide_render obj |}]> states)
    ∅ objects.

(** The loop of [finish_batch_render] over
    [self._visibility_states.items()]. *)
Definition restore_visibility (states objects : gmap string Visibility)
  : gmap string Visibility :=
  map_fold
    (λ obj_name saved objs,
       match objs !! obj_name with
       | Some obj =>
           <[obj_name :=
               set_hide_render (hide_render saved)
                 (set_hide_viewport (hide_viewport saved) obj)]> objs
       | None => objs
       end)
    objects states.

(** "Hide all objects" in [render_next_object]. *)
Definition hide_all (objects : gmap string Visibility)
  : gmap string Visibility :=
  (λ obj, set_hide_viewport true (set_hide_render true obj)) <$> objects.

(** "Show only current object". *)
Definition show (name : string) (objects : gmap string Visibility)
  : gmap string Visibility :=
  alter (λ obj, set_hide_viewport false (set_hide_render false obj))
    name objects.

(** [not current_obj or current_obj.name not in bpy.data.objects], negated:
    the name of the entry's object when the entry passes the check. *)
Definition validate (objects : gmap string Visibility) (item : BatchItem)
  : option string :=
  match item with
  | Some name =>
      match objects !! name with
      | Some _ => Some name
      | None => None
      end
  | None => None
  end.

(** "Generate filename" and "Set filepath with proper extension". *)
Definition batch_filename (prefix_prop name : string) (index : nat)
  : string :=
  let prefix := strip prefix_prop in
  let clean := clean_name name in
  if String.eqb prefix EmptyString then
    clean +:+ "_" +:+ format_0d 3 (Z.of_nat index + 1)
  else
    prefix +:+ "_" +:+ clean +:+ "_" +:+ format_0d 3 (Z.of_nat index + 1).

Definition batch_filepath (sc : Scene) (name : string) (index : nat)
  : string :=
  let filename := batch_filename (batch_render_prefix sc) name index in
  let extension := get_file_extension (file_format sc) in
  path_join (abspath (batch_render_path sc)) (filename +:+ extension).

Definition finish_batch_render (o : Oracle) (cancelled : bool) (st : State)
  : State :=
  (* Stop timer *)
  let st := if _timer (self st) then on_self (self_set_timer false) st
            else st in
  (* Restore original settings *)
  let st := on_scene (scene_set_filepath (_original_filepath (self st))) st in
  (* Restore object visibility *)
  let st := on_objects (restore_visibility (_visibility_states (self st))) st in
  (* Reset variables *)
  let st := on_self (self_set_current_index 0) st in
  let st := on_self (self_set_visibility_states ∅) st in
  let st := on_self (self_set_is_running false) st in
  (* Update final status *)
  if cancelled then
    let st := on_scene (scene_set_progress (float_of_int 0)) st in
    let st := on_scene (scene_set_status "Cancelled by user") st in
    let st := on_scene (scene_set_eta EmptyString) st in
    let st := on_scene (scene_set_current_object EmptyString) st in
    on_scene (scene_set_cancelled false) st
  else
    let st := on_scene (scene_set_progress (float_of_int 100)) st in
    let st := on_scene (scene_set_current_object EmptyString) st in
    let st :=
      on_scene (scene_set_status
        ("Completed! " +:+ pretty (_total_objects (self st))
           +:+ " objects rendered")) st in
    let elapsed_time := fsub (now o) (_start_time (self st)) in
    let minutes := int_of_float (ffloordiv elapsed_time (float_of_int 60)) in
    let seconds := int_of_float (fmod elapsed_time (float_of_int 60)) in
    on_scene (scene_set_eta
      ("Total time: " +:+ format_0d 2 minutes +:+ ":" +:+ format_0d 2 seconds))
      st.

Definition update_progress_info (o : Oracle) (st : State) : State :=
  let total := _total_objects (self st) in
  let current := _current_index (self st) in
  if (0 <? total) && (0 <? current) then
    let elapsed_time := fsub (now o) (_start_time (self st)) in
    let avg_time_per_object :=
      fdiv elapsed_time (float_of_int (Z.of_nat current)) in
    let remaining_objects := (Z.of_nat total - Z.of_nat current)%Z in
    let eta_seconds := fmul avg_time_per_object (float_of_int remaining_objects) in
    let eta_minutes := int_of_float (ffloordiv eta_seconds (float_of_int 60)) in
    let eta_secs := int_of_float (fmod eta_seconds (float_of_int 60)) in
    let st :=
      on_scene (scene_set_eta
        ("ETA: " +:+ format_0d 2 eta_minutes +:+ ":" +:+ format_0d 2 eta_secs))
        st in
    let progress :=
      fmul (truediv (Z.of_nat current) (Z.of_nat total)) (float_of_int 100) in
    on_scene (scene_set_progress progress) st
  else st.

(** What [render_next_object] does after a skipped entry and, in the same
    words, after a render call that raised: step to the next index, then
    look at that entry ([next]) or finish when the list is exhausted. *)
Definition advance (next : State → State) (o : Oracle) (st : State) : State :=
  let st :=
    on_self (self_set_current_index (_current_index (self st) + 1)) st in
  if _current_index (self st) <? length (batch_render_objects (scene (bl st)))
  then next st
  else finish_batch_render o false st.

(** [render_next_object] calls itself after a skipped or failed entry, each
    time with a larger [_current_index].  [fuel] bounds the number of nested
    calls; [render_next_object] below supplies as many as entries remain, and
    [render_next_object_fuel] shows that more would change nothing. *)
Fixpoint render_next_object_rec (fuel : nat) (o : Oracle) (st : State)
  : State :=
  let objects := batch_render_objects (scene (bl st)) in
  let index := _current_index (self st) in
  if length objects <=? index then st
  else
    match fuel with
    | O => st
    | S fuel' =>
        match validate (data_objects (bl st))
                (default None (objects !! index)) with
        | None =>
            (* Skipping invalid object *)
            advance (render_next_object_rec fuel' o) o st
        | Some name =>
            (* Hide all objects, show only current object *)
            let st := on_objects hide_all st in
            let st := on_objects (show name) st in
            (* Generate filename, set filepath *)
            let st :=
              on_scene (scene_set_filepath
                          (batch_filepath (scene (bl st)) name index)) st in
            (* Update status *)
            let st := on_scene (scene_set_current_object name) st in
            let st :=
              on_scene (scene_set_status
                ("Rendering: " +:+ name +:+ " (" +:+ pretty (index + 1)
                   +:+ "/" +:+ pretty (_total_objects (self st)) +:+ ")"))
                st in
            (* Start render *)
            if render_raises o index then
              let st := call_render index name true st in
              let st := report ERROR ("Failed to render " +:+ name) st in
              (* Continue with next object *)
              advance (render_next_object_rec fuel' o) o st
            else call_render index name false st
        end
    end.

Definition render_next_object (o : Oracle) (st : State) : State :=
  render_next_object_rec
    (length (batch_render_objects (scene (bl st))) - _current_index (self st))
    o st.

Definition modal (event : Event) (o : Oracle) (st : State)
  : State * Result :=
  match event with
  | TIMER =>
      (* Check if cancelled *)
      if batch_render_cancelled (scene (bl st)) then
        (finish_batch_render o true st, CANCELLED)
      else
        (* Check if render completed *)
        let is_rendering := default false (job_running o) in
        (* Update progress info *)
        let progress_info (st : State) : State * Result :=
          (if _is_running (self st) then update_progress_info o st else st,
           PASS_THROUGH) in
        if negb is_rendering && _is_running (self st) then
          (* Update progress *)
          let st :=
            on_scene (scene_set_progress
              (fmul (truediv (Z.of_nat (_current_index (self st)) + 1)
                             (Z.of_nat (_total_objects (self st))))
                    (float_of_int 100))) st in
          (* Move to next object *)
          let st :=
            on_self (self_set_current_index (_current_index (self st) + 1))
              st in
          if _current_index (self st)
               <? length (batch_render_objects (scene (bl st)))
          then progress_info (render_next_object o st)
          else (finish_batch_render o false st, FINISHED)
        else progress_info st
  | OTHER_EVENT => (st, PASS_THROUGH)
  end.

Definition execute (fs : FileSystem) (o : Oracle) (b : Blender)
  : State * Result :=
  let st := {| bl := b; self := self_init;
               render_calls := []; reports := [] |} in
  let sc := scene b in
  if length (batch_render_objects sc) =? 0 then
    (report ERROR "Batch list is empty!" st, CANCELLED)
  else if String.eqb (batch_render_path sc) EmptyString then
    (report ERROR "Output folder not selected!" st, CANCELLED)
  else
    (* Check and create output directory *)
    let output_path := abspath (batch_render_path sc) in
    match (if fs_exists fs output_path then MkOk
           else fs_makedirs fs output_path) with
    | MkPermissionError =>
        (report ERROR "Cannot create folder: Permission denied!" st, CANCELLED)
    | MkOtherError msg =>
        (report ERROR ("Cannot create folder: " +:+ msg) st, CANCELLED)
    | MkOk =>
        (* Check write permissions *)
        if negb (fs_access_w fs output_path) then
          (report ERROR "No write permission to output folder!" st, CANCELLED)
        else
          (* Check disk space (minimum 100MB) *)
          let st :=
            match fs_disk_free fs output_path with
            | Some free_space =>
                if (free_space <? 100 * 1024 * 1024)%Z
                then report WARNING "Low disk space detected!" st
                else st
            | None => st
            end in
          (* Initialize batch render *)
          let st :=
            on_self (self_set_original_filepath
                       (render_filepath (scene (bl st)))) st in
          let st :=
            on_self (self_set_visibility_states
                       (save_visibility (data_objects (bl st)))) st in
          (* Reset progress and status *)
          let st := on_scene (scene_set_cancelled false) st in
          let st := on_scene (scene_set_progress (float_of_int 0)) st in
          let st := on_scene (scene_set_current_object EmptyString) st in
          let st := on_scene (scene_set_status "Starting batch render...") st in
          let st := on_scene (scene_set_eta "Calculating...") st in
          (* Initialize counters *)
          let st := on_self (self_set_start_time (now o)) st in
          let st :=
            on_self (self_set_total_objects
                       (length (batch_render_objects (scene (bl st))))) st in
          let st := on_self (self_set_is_running true) st in
          let st := on_self (self_set_current_index 0) st in
          (* Start rendering first object *)
          let st := render_next_object o st in
          (* Start modal timer *)
          let st := on_self (self_set_timer true) st in
          let st :=
            report INFO
              ("Batch render started: " +:+ pretty (_total_objects (self st))
                 +:+ " objects") st in
          (st, RUNNING_MODAL)
    end.

(** [RENDER_OT_cancel_batch.execute] *)
Definition cancel_batch (st : State) : State * Result :=
  let st := on_scene (scene_set_cancelled true) st in
  (report INFO "Batch render cancelled" st, FINISHED).

(** ** Runs of the batch operator

    After [execute] returned [RUNNING_MODAL] the host feeds events to
    [modal] until it returns [FINISHED] or [CANCELLED]; in between the user
    may press the cancel button. *)
Inductive Action :=
  | Deliver (event : Event) (o : Oracle)
  | PressCancel.

(** The state after the actions, and the result that ended the modal
    operator, if one did ([None]: still modal). *)
Fixpoint run (actions : list Action) (st : State) : State * option Result :=
  match actions with
  | [] => (st, None)
  | Deliver event o :: rest =>
      let '(st', r) := modal event o st in
      match r with
      | FINISHED | CANCELLED => (st', Some r)
      | RUNNING_MODAL | PASS_THROUGH => run rest st'
      end
  | PressCancel :: rest => run rest (fst (cancel_batch st))
  end.

Definition is_deliver (a : Action) : bool :=
  match a with
  | Deliver _ _ => true
  | PressCancel => false
  end.

(** The list indices for which a render was requested, oldest first. *)
Definition rendered_indices (st : State) : list nat :=
  rc_index <$> render_calls st.

(** ** Vocabulary of the statements *)

(** Entry [i] of the batch list of [b] passes the check "Validate object"
    of [render_next_object]. *)
Definition valid_entry (b : Blender) (i : nat) : bool :=
  match validate (data_objects b)
          (default None (batch_render_objects (scene b) !! i)) with
  | Some _ => true
  | None => false
  end.

(** The valid entries among the first [k], in list order. *)
Definition valid_indices (b : Blender) (k : nat) : list nat :=
  filter (λ i, valid_entry b i = true) (seq 0 k).

(** Only [name] is visible: it has both flags off, every other object has
    both flags on. *)
Definition isolated (name : string) (objects : gmap string Visibility)
  : Prop :=
  objects !! name
    = Some {| hide_viewport := false; hide_render := false |} ∧
  ∀ other v, other ≠ name → objects !! other = Some v →
    v = {| hide_viewport := true; hide_render := true |}.

(** The output file of entry [index] holding object [name], spelled out:
    directory, optional stripped prefix, cleaned name, 1-based number on
    three digits, extension. *)
Definition expected_filepath (b : Blender) (name : string) (index : nat)
  : string :=
  let P := strip (batch_render_prefix (scene b)) in
  let C := clean_name name in
  let NNN := format_0d 3 (Z.of_nat index + 1) in
  let ext := default ".png" (batch_extensions !! file_format (scene b)) in
  path_join (abspath (batch_render_path (scene b)))
    ((if String.eqb P EmptyString then C +:+ "_" +:+ NNN
      else P +:+ "_" +:+ C +:+ "_" +:+ NNN) +:+ ext).

(** What holds of a render call recorded during a batch started from
    [b0]. *)
Record call_ok (b0 : Blender) (rc : RenderCall) : Prop := {
  call_entry :
    batch_render_objects (scene b0) !! rc_index rc = Some (Some (rc_object rc));
  call_valid : valid_entry b0 (rc_index rc) = true;
  call_filepath :
    rc_filepath rc = expected_filepath b0 (rc_object rc) (rc_index rc);
  call_isolated : isolated (rc_object rc) (rc_visibility rc);
  call_dom : dom (rc_visibility rc) = dom (data_objects b0)
}.

(** What a batch started from [b0] never changes. *)
Record Frame (b0 : Blender) (st : State) : Prop := {
  frame_items :
    batch_render_objects (scene (bl st)) = batch_render_objects (scene b0);
  frame_path : batch_render_path (scene (bl st)) = batch_render_path (scene b0);
  frame_prefix :
    batch_render_prefix (scene (bl st)) = batch_render_prefix (scene b0);
  frame_format : file_format (scene (bl st)) = file_format (scene b0);
  frame_dom : dom (data_objects (bl st)) = dom (data_objects b0);
  frame_total :
    _total_objects (self st) = length (batch_render_objects (scene b0));
  frame_orig : _original_filepath (self st) = render_filepath (scene b0);
  frame_calls : Forall (call_ok b0) (render_calls st)
}.

(** Inside [render_next_object], about to look at entry [_current_index]:
    every valid entry before it has had its render call, and no other. *)
Record Mid (b0 : Blender) (st : State) : Prop := {
  mid_frame : Frame b0 st;
  mid_running : _is_running (self st) = true;
  mid_saved : _visibility_states (self st) = data_objects b0;
  mid_index :
    _current_index (self st) ≤ length (batch_render_objects (scene b0));
  mid_calls : rendered_indices st = valid_indices b0 (_current_index (self st))
}.

(** Between two events of a batch started from [b0].  While the batch runs,
    the entry at [_current_index] is the one being rendered: the last render
    call was for it and did not raise.  Once it has
    stopped, objects and filepath are back to those of [b0].  [strict] marks
    the runs in which the cancel button is never pressed. *)
Record Inv (b0 : Blender) (strict : bool) (st : State) : Prop := {
  inv_frame : Frame b0 st;
  inv_flag : strict = true → batch_render_cancelled (scene (bl st)) = false;
  inv_phase :
    if _is_running (self st) then
      _visibility_states (self st) = data_objects b0 ∧
      _current_index (self st) < length (batch_render_objects (scene b0)) ∧
      rendered_indices st = valid_indices b0 (S (_current_index (self st))) ∧
      (∃ calls rc, render_calls st = (calls ++ [rc])%list ∧
                   rc_index rc = _current_index (self st) ∧
                   rc_raised rc = false)
    else
      data_objects (bl st) = data_objects b0 ∧
      render_filepath (scene (bl st)) = render_filepath (scene b0) ∧
      _visibility_states (self st) = ∅ ∧
      (∃ k, k ≤ length (batch_render_objects (scene b0)) ∧
            rendered_indices st = valid_indices b0 k) ∧
      (strict = true →
         rendered_indices st
           = valid_indices b0 (length (batch_render_objects (scene b0))) ∧
         batch_render_progress (scene (bl st)) = float_of_int 100)
}.

(** The render calls that did not raise and are no longer the one in
    progress: the renders the sequencer has seen complete. *)
Definition completed_renders (st : State) : nat :=
  length (filter (λ rc, rc_raised rc = false) (render_calls st))
  - (if _is_running (self st) then 1 else 0).

(** The render calls that raised. *)
Definition failed_renders (st : State) : nat :=
  length (filter (λ rc, rc_raised rc = true) (render_calls st)).

(** The entries among the first [k] that fail the validity check. *)
Definition skipped_entries (b : Blender) (k : nat) : nat :=
  length (filter (λ i, valid_entry b i = false) (seq 0 k)).

(** The filepath of entry [index] as C7 words it: the user prefix itself
    goes into the name, and is left out when stripping it leaves nothing. *)
Definition claimed_filepath (b : Blender) (name : string) (index : nat)
  : string :=
  let P := batch_render_prefix (scene b) in
  let C := clean_name name in
  let NNN := format_0d 3 (Z.of_nat index + 1) in
  let ext := default ".png" (batch_extensions !! file_format (scene b)) in
  path_join (abspath (batch_render_path (scene b)))
    ((if String.eqb (strip P) EmptyString then C +:+ "_" +:+ NNN
      else P +:+ "_" +:+ C +:+ "_" +:+ NNN) +:+ ext).

(** A timer event whose poll does not report a running render job. *)
Definition is_idle_tick (a : Action) : bool :=
  match a with
  | Deliver TIMER o => negb (default false (job_running o))
  | _ => false
  end.

(** [(k / n) * 100] as the operator computes it. *)
Definition percent (k n : nat) : float :=
  fmul (truediv (Z.of_nat k) (Z.of_nat n)) (float_of_int 100).

(** The progress shown while the batch runs is [0] or the percentage of
    the current index. *)
Definition progress_weak (st : State) : Prop :=
  _is_running (self st) = true →
  batch_render_progress (scene (bl st)) = float_of_int 0 ∨
  (0 < _current_index (self st) ∧
   batch_render_progress (scene (bl st))
     = percent (_current_index (self st)) (_total_objects (self st))).

(** The progress shown after a timer event of a running batch. *)
Definition progress_exact (st : State) : Prop :=
  _is_running (self st) = true →
  batch_render_progress (scene (bl st))
    = if _current_index (self st) =? 0 then float_of_int 0
      else percent (_current_index (self st)) (_total_objects (self st)).

(** ** The operators on the batch list *)

(** [RENDER_OT_add_to_batch.execute] on the list, given
    [context.active_object]: the new list, the result and the report. *)
Definition add_to_batch (active_object : option string)
  (objects : list BatchItem) : list BatchItem * Result * (Level * string) :=
  match active_object with
  | None => (objects, CANCELLED, (ERROR, "No object selected!"))
  | Some selected_obj =>
      (* Check if already in list *)
      if existsb (λ item, bool_decide (item = Some selected_obj)) objects then
        (objects, CANCELLED,
         (WARNING, "'" +:+ selected_obj +:+ "' already in list!"))
      else
        (* Add to list *)
        ((objects ++ [Some selected_obj])%list, FINISHED,
         (INFO, "'" +:+ selected_obj +:+ "' added to batch list"))
  end.

(** [RENDER_OT_clear_batch.execute]: the list and the selection index. *)
Definition clear_batch (objects : list BatchItem) (index : Z)
  : list BatchItem * Z * Result * (Level * string) :=
  ([], 0%Z, FINISHED, (INFO, "Batch list cleared")).

(** The names of the objects a batch list points to, in list order. *)
Definition listed_objects (objects : list BatchItem) : list string :=
  omap id objects.

(** ** The visibility helpers *)

(** [RENDER_OT_restore_all.execute] on [bpy.data.objects]. *)
Definition restore_all (objects : gmap string Visibility)
  : gmap string Visibility * Result * (Level * string) :=
  ((λ obj, set_hide_render false (set_hide_viewport false obj)) <$> objects,
   FINISHED, (INFO, "All objects restored")).

(** The loop "for obj in bpy.data.objects: if obj != selected_obj: hide",
    which [RENDER_OT_hide_others] and [RENDER_OT_single_object] share (up to
    the order of the two assignments). *)
Definition hide_except (selected_obj : string)
  (objects : gmap string Visibility) : gmap string Visibility :=
  map_imap
    (λ name obj,
       Some (if decide (name = selected_obj) then obj
             else set_hide_render true (set_hide_viewport true obj)))
    objects.

(** [RENDER_OT_hide_others.execute] *)
Definition hide_others (active_object : option string)
  (objects : gmap string Visibility)
  : gmap string Visibility * Result * (Level * string) :=
  match active_object with
  | None => (objects, CANCELLED, (ERROR, "No object selected!"))
  | Some selected_obj =>
      (hide_except selected_obj objects, FINISHED,
       (INFO, "Hidden all except '" +:+ selected_obj +:+ "'"))
  end.

(** ** RENDER_OT_single_object *)

(** The [visibility_states] dictionary that [execute] fills: the flags of
    every object but the selected one. *)
Definition save_except (selected_obj : string)
  (objects : gmap string Visibility) : gmap string Visibility :=
  map_fold
    (λ name obj states,
       if decide (name = selected_obj) then states
       else <[name := {| hide_viewport := hide_viewport obj;
                         hide_render := hide_render obj |}]> states)
    ∅ objects.

(** The closure [restore_settings] that [execute] registers as a timer: its
    loop over [visibility_states.items()] is the one of
    [finish_batch_render], run on the objects that exist when the timer
    fires. *)
Definition restore_settings (visibility_states objects : gmap string Visibility)
  : gmap string Visibility :=
  restore_visibility visibility_states objects.

(** What one call of [RENDER_OT_single_object.execute] leaves behind.
    [so_result] is [None] when the render call raised and the exception left
    [execute]; [so_render] is what the host saw at the render call (the
    objects and the filepath); [so_timer] is the [visibility_states] of the
    [restore_settings] closure registered with [bpy.app.timers], if one
    was. *)
Record SingleOutcome := {
  so_result : option Result;
  so_objects : gmap string Visibility;
  so_filepath : string;
  so_render : option (gmap string Visibility * string);
  so_timer : option (gmap string Visibility);
  so_reports : list (Level * string)
}.

(** [RENDER_OT_single_object.execute], given [context.active_object],
    whether [bpy.ops.render.render] raises, [bpy.data.objects] and the
    scene. *)
Definition single_object_execute (active_object : option string)
  (raises : bool) (objects : gmap string Visibility) (sc : Scene)
  : SingleOutcome :=
  match active_object with
  | None =>
      {| so_result := Some CANCELLED; so_objects := objects;
         so_filepath := render_filepath sc; so_render := None;
         so_timer := None;
         so_reports := [(ERROR, "No object selected!")] |}
  | Some selected_obj =>
      (* Save and hide all other objects *)
      let visibility_states := save_except selected_obj objects in
      let objects := hide_except selected_obj objects in
      (* Set proper file extension *)
      let filepath := set_file_extension (file_format sc) (render_filepath sc) in
      (* Start render *)
      if raises then
        {| so_result := None; so_objects := objects; so_filepath := filepath;
           so_render := Some (objects, filepath); so_timer := None;
           so_reports := [] |}
      else
        {| so_result := Some FINISHED; so_objects := objects;
           so_filepath := filepath;
           so_render := Some (objects, filepath);
           (* Restore visibility after delay *)
           so_timer := if single_render_restore sc
                       then Some visibility_states else None;
           so_reports := [(INFO, "Rendering '" +:+ selected_obj +:+ "'")] |}
  end.

(** ** Reading file names back *)

(** The value of a decimal digit, 0 for any other character. *)
Definition digit_value (c : ascii) : N :=
  let n := N_of_ascii c in
  if ((48 <=? n) && (n <=? 57))%N then (n - 48)%N else 0%N.

(** The number a string of decimal digits denotes, read left to right
    from [acc]. *)
Fixpoint dec_value (acc : N) (s : string) : N :=
  match s with
  | String c r => dec_value (acc * 10 + digit_value c)%N r
  | EmptyString => acc
  end.

(** No underscore in [s]. *)
Fixpoint underscore_free (s : string) : bool :=
  match s with
  | String c r => negb (Ascii.eqb c "_"%char) && underscore_free r
  | EmptyString => true
  end.

(** The text "Completed! n objects rendered" of [finish_batch_render]. *)
Definition completed_status (total : nat) : string :=
  "Completed! " +:+ pretty total +:+ " objects rendered".

(** While the batch runs, the scene's filepath and current-object text
    are those of the last render call. *)
Definition shows_current (st : State) : Prop :=
  _is_running (self st) = true →
  ∃ calls rc, render_calls st = (calls ++ [rc])%list ∧
    rc_filepath rc = render_filepath (scene (bl st)) ∧
    rc_object rc = batch_render_current_object (scene (bl st)).

(** Once a batch started from [b0] has stopped, the status is the
    completion message for the whole list. *)
Definition status_completed (b0 : Blender) (st : State) : Prop :=
  _is_running (self st) = false →
  batch_render_status (scene (bl st))
  = completed_status (length (batch_render_objects (scene b0))).

End Addon.

(** ** A concrete host, for running the model *)
Module Demo.

(** POSIX [os.path.join] on two components. *)
Definition posix_join (a b : string) : string :=
  if String.prefix "/" b then b
  else if String.eqb a EmptyString || endswith a "/" then a +:+ b
  else a +:+ "/" +:+ b.

(** Exact rationals in lowest terms stand in for floats. *)
#[export] Instance demo_host : Host := {|
  float := Q;
  float_of_int := inject_Z;
  truediv := λ a b, Qred (inject_Z a / inject_Z b);
  fmul := λ x y, Qred (x * y);
  fsub := λ x y, Qred (x - y);
  fdiv := λ x y, Qred (x / y);
  ffloordiv := λ x y, inject_Z (Qfloor (x / y));
  fmod := λ x y, Qred (x - y * inject_Z (Qfloor (x / y)));
  int_of_float := λ x, Z.quot (Qnum x) (Z.pos (Qden x));
  abspath := λ p, p;
  clean_name := λ n, n;
  path_join := posix_join
|}.

Definition shown : Visibility := {| hide_viewport := false; hide_render := false |}.
Definition hidden : Visibility := {| hide_viewport := true; hide_render := true |}.

Definition demo_scene (items : list BatchItem) (prefix : string) : Scene :=
  {| render_filepath := "/tmp/frame"; file_format := "PNG";
     single_render_restore := true;
     batch_render_objects := items; batch_render_index := 0;
     batch_render_path := "/out"; batch_render_prefix := prefix;
     batch_render_progress := inject_Z 0;
     batch_render_current_object := EmptyString; batch_render_status := "Ready";
     batch_render_eta := EmptyString; batch_render_cancelled := false |}.

Definition demo_objects : gmap string Visibility :=
  <["Cube" := shown]> (<["Lamp" := hidden]> (<["Cone" := shown]> ∅)).

Definition demo_blender (items : list BatchItem) (prefix : string) : Blender :=
  {| data_objects := demo_objects; scene := demo_scene items prefix |}.

Definition demo_fs : FileSystem :=
  {| fs_exists := λ _, true; fs_makedirs := λ _, MkOk;
     fs_access_w := λ _, true; fs_disk_free := λ _, None |}.

(** An event at clock [t] with the given poll answer; no render call raises. *)
Definition at_time (t : Z) (poll : option bool) : Oracle :=
  {| job_running := poll; render_raises := λ _, false; now := inject_Z t |}.

(** A timer event at clock [t]. *)
Definition tick (t : Z) (poll : option bool) : Action :=
  Deliver TIMER (at_time t poll).

Definition two_items : list BatchItem := [Some "Cube"; Some "Cone"].
Definition mixed_items : list BatchItem := [Some "Cube"; None; Some "Cone"].
Definition skip_first : list BatchItem := [None; Some "Cube"].

(** The state right after a successful [execute] at clock 0. *)
Definition started (items : list BatchItem) (prefix : string) : State :=
  fst (execute demo_fs (at_time 0 None) (demo_blender items prefix)).

(** The render call for "Cube" as first entry, with prefix [" p "]. *)
Definition cube_call : RenderCall :=
  {| rc_index := 0; rc_object := "Cube";
     rc_filepath := "/out/p_Cube_001.png";
     rc_visibility :=
       <["Cube" := shown]> (<["Lamp" := hidden]> (<["Cone" := hidden]> ∅));
     rc_raised := false |}.

(** A file system on which the output directory is missing and cannot be
    created. *)
Definition readonly_fs : FileSystem :=
  {| fs_exists := λ _, false; fs_makedirs := λ _, MkPermissionError;
     fs_access_w := λ _, false; fs_disk_free := λ _, None |}.

(** A prefix wrapped in white space outside the ASCII range: a no-break
    space (U+00A0), the letter p, an em space (U+2003), as UTF-8. *)
Definition unicode_prefix : string :=
  String "194" (String "160"
    (String "p" (String "226" (String "128" (String "131" EmptyString))))).

(** A list that ends with an entry whose object is gone, a list without
    any valid entry, and a host state with a cancel request left over. *)
Definition last_invalid : list BatchItem := [Some "Cube"; None].
Definition none_valid : list BatchItem := [None; Some "Ghost"].
Definition cancel_requested : Blender :=
  {| data_objects := demo_objects;
     scene := scene_set_cancelled true (demo_scene two_items EmptyString) |}.

End Demo.

(** * Properties *)

(** ** Stripping white space *)

Lemma decode_first_shorter (s r : string) (cp : N) :
  decode_first s = Some (cp, r) → String.length r < String.length s.
Proof.
  unfold decode_first. intros Hdec.
  repeat case_match; simplify_eq; simpl; lia.
Qed.

Lemma drop_space_shorter (s r : string) :
  drop_space s = Some r → String.length r < String.length s.
Proof.
  unfold drop_space. destruct (decode_first s) as [[cp r']|] eqn:Hdec; [|done].
  destruct (is_space cp); [|done]. intros [= <-].
  by eapply decode_first_shorter.
Qed.

(** The fuel [lstrip] gives is enough: with at least the length of the
    string, the result does not depend on it. *)
Lemma lstrip_rec_fuel (fuel : nat) (s : string) :
  String.length s ≤ fuel → lstrip_rec fuel s = lstrip s.
Proof.
  unfold lstrip.
  assert (Hany : ∀ f1 f2 t, String.length t ≤ f1 → String.length t ≤ f2 →
            lstrip_rec f1 t = lstrip_rec f2 t); [|by intros; apply Hany].
  induction f1 as [|f1 IH]; intros f2 t H1 H2.
  - destruct t; [|simpl in H1; lia]. by destruct f2.
  - destruct f2 as [|f2].
    { destruct t; [done|simpl in H2; lia]. }
    simpl. destruct (drop_space t) as [r|] eqn:Hdrop; [|done].
    apply drop_space_shorter in Hdrop. apply IH; lia.
Qed.

(** What [lstrip] returns does not start with white space. *)
Lemma lstrip_no_leading_space (s : string) : drop_space (lstrip s) = None.
Proof.
  unfold lstrip.
  assert (Hany : ∀ fuel t, String.length t ≤ fuel →
            drop_space (lstrip_rec fuel t) = None); [|by apply Hany].
  induction fuel as [|fuel IH]; intros t Hlen.
  - by destruct t; [|simpl in Hlen; lia].
  - simpl. destruct (drop_space t) as [r|] eqn:Hdrop; [|done].
    apply IH. apply drop_space_shorter in Hdrop. lia.
Qed.

(** White space outside the ASCII range is stripped too: a no-break space
    (U+00A0) in front of and an em space (U+2003) behind the letter p. *)
Lemma strip_unicode_white_space :
  strip (String "194" (String "160"
          (String "p" (String "226" (String "128" (String "131" EmptyString))))))
  = "p".
Proof. reflexivity. Qed.

(** ** Extensions: the two operators compared *)

(** Outside the three formats that only the batch table lists, both
    operators pick the same extension. *)
Lemma extensions_agree_elsewhere (file_format : string) :
  file_format ∉ batch_only_extension_items.*1 →
  single_extension file_format = get_file_extension file_format.
Proof.
  intros Hnot. unfold single_extension, get_file_extension.
  unfold batch_extensions, single_extensions.
  rewrite list_to_map_app, lookup_union.
  rewrite (not_elem_of_list_to_map_1 (M := gmap string) _ _ Hnot).
  by destruct (list_to_map single_extension_items !! file_format).
Qed.

(** C9, at the format where it fails: for ['IRIS'] the single-object
    operator falls back to ['.png'] while the batch operator picks
    ['.rgb'], so the two render paths do not choose the same extension. *)
Theorem extension_paths_differ_on_IRIS :
  single_extension "IRIS" = ".png" ∧ get_file_extension "IRIS" = ".rgb" ∧
  single_extension "IRIS" ≠ get_file_extension "IRIS".
Proof. by vm_compute. Qed.

(** ** Removing an entry from the batch list *)

Lemma remove_from_batch_length (objects : list BatchItem) (index : Z) :
  (0 ≤ index < Z.of_nat (length objects))%Z →
  length (fst (remove_from_batch objects index)) = length objects - 1.
Proof.
  intros Hin. unfold remove_from_batch.
  replace ((0 <=? index)%Z && (index <? Z.of_nat (length objects))%Z)
    with true by (symmetry; apply andb_true_iff; lia).
  simpl. unfold collection_remove. rewrite length_delete; [lia|].
  apply lookup_lt_is_Some. lia.
Qed.

(** C10 as stated fails when the only entry is removed: the index [0] is in
    bounds, the list becomes empty and the stored index becomes [-1]. *)
Lemma remove_only_entry_index_invalid :
  let objects : list BatchItem := [Some "Cube"] in
  let r := remove_from_batch objects 0 in
  (0 ≤ 0 < Z.of_nat (length objects))%Z ∧
  r = ([], (-1)%Z) ∧
  ¬ (0 ≤ snd r < Z.of_nat (length (fst r)))%Z.
Proof. simpl. split; [lia|]. split; [done|]. lia. Qed.

(** C10, amended: after the remove operator deletes the entry at an
    in-bounds selection index, the list is one entry shorter and the stored
    index is a valid index of the remaining list whenever that list is not
    empty; when the removed entry was the only one the stored index is
    [-1]. *)
Theorem remove_from_batch_index (objects : list BatchItem) (index : Z) :
  (0 ≤ index < Z.of_nat (length objects))%Z →
  let r := remove_from_batch objects index in
  length (fst r) = length objects - 1 ∧
  (fst r ≠ [] → (0 ≤ snd r < Z.of_nat (length (fst r)))%Z) ∧
  (fst r = [] → snd r = (-1)%Z).
Proof.
  intros Hin r. pose proof (remove_from_batch_length objects index Hin) as Hlen.
  subst r. unfold remove_from_batch in *.
  replace ((0 <=? index)%Z && (index <? Z.of_nat (length objects))%Z)
    with true in * by (symmetry; apply andb_true_iff; lia).
  simpl in *. split; [done|]. split.
  - intros Hne.
    assert (length (collection_remove (Z.to_nat index) objects) ≠ 0)
      by (by destruct (collection_remove _ _)).
    lia.
  - intros ->. simpl. lia.
Qed.

(** Removing the last of three entries leaves the selection on the new last
    entry. *)
Lemma remove_from_batch_index_witness :
  let objects : list BatchItem := [Some "Cube"; None; Some "Cone"] in
  (0 ≤ 2 < Z.of_nat (length objects))%Z ∧
  (0 ≤ snd (remove_from_batch objects 2)
     < Z.of_nat (length (fst (remove_from_batch objects 2))))%Z.
Proof.
  intros objects.
  assert (Hin : (0 ≤ 2 < Z.of_nat (length objects))%Z) by (simpl; lia).
  split; [exact Hin|].
  destruct (remove_from_batch_index objects 2 Hin) as (_ & Hvalid & _).
  apply Hvalid. discriminate.
Defined.

(** ** The batch operator *)

Section BatchProofs.
Context `{Host}.

(** *** Saving and restoring visibility *)

Lemma save_visibility_id (objects : gmap string Visibility) :
  save_visibility objects = objects.
Proof.
  unfold save_visibility.
  apply (map_fold_weak_ind (λ r (m : gmap string Visibility), r = m)).
  - done.
  - intros name [hv hr] m r _ ->. done.
Qed.

Lemma restore_visibility_lookup (states objects : gmap string Visibility)
  (name : string) :
  restore_visibility states objects !! name
  = match objects !! name with
    | Some obj =>
        Some (match states !! name with
              | Some saved =>
                  {| hide_viewport := hide_viewport saved;
                     hide_render := hide_render saved |}
              | None => obj
              end)
    | None => None
    end.
Proof.
  unfold restore_visibility.
  apply (map_fold_weak_ind
    (λ r (m : gmap string Visibility),
       r !! name = match objects !! name with
                   | Some obj =>
                       Some (match m !! name with
                             | Some saved =>
                                 {| hide_viewport := hide_viewport saved;
                                    hide_render := hide_render saved |}
                             | None => obj
                             end)
                   | None => None
                   end)).
  - rewrite lookup_empty. by destruct (objects !! name).
  - intros i saved m r Hi IH.
    destruct (decide (i = name)) as [->|Hne].
    + rewrite Hi in IH. rewrite lookup_insert_eq.
      destruct (r !! name) as [obj|] eqn:Hr.
      * rewrite lookup_insert_eq. by destruct (objects !! name).
      * rewrite Hr. by destruct (objects !! name).
    + rewrite (lookup_insert_ne m), <- IH by done.
      destruct (r !! i); [by rewrite lookup_insert_ne|done].
Qed.

(** With the same objects around as when the states were saved, restoring
    gives back exactly what was saved. *)
Lemma restore_visibility_saved (saved objects : gmap string Visibility) :
  dom objects = dom saved → restore_visibility saved objects = saved.
Proof.
  intros Hdom. apply map_eq. intros name.
  rewrite restore_visibility_lookup.
  assert (Hiff : is_Some (objects !! name) ↔ is_Some (saved !! name))
    by (by rewrite <- !elem_of_dom, Hdom).
  destruct (objects !! name) as [obj|] eqn:Ho,
           (saved !! name) as [[hv hr]|] eqn:Hs; try done.
  - destruct Hiff as [Hiff _]. destruct Hiff as [? [=]]. eauto.
  - destruct Hiff as [_ Hiff]. destruct Hiff as [? [=]]. eauto.
Qed.

Lemma dom_restore_visibility (states objects : gmap string Visibility) :
  dom (restore_visibility states objects) = dom objects.
Proof.
  apply set_eq. intros name.
  rewrite !elem_of_dom, restore_visibility_lookup.
  destruct (objects !! name); split; intros [? ?]; eauto; done.
Qed.

Lemma restore_visibility_nothing (objects : gmap string Visibility) :
  restore_visibility ∅ objects = objects.
Proof. unfold restore_visibility. by rewrite map_fold_empty. Qed.

(** *** Hiding all objects but one *)

Lemma dom_show_hide_all (name : string) (objects : gmap string Visibility) :
  dom (show name (hide_all objects)) = dom objects.
Proof.
  unfold show, hide_all. by rewrite dom_alter_L, dom_fmap_L.
Qed.

Lemma show_hide_all_isolated (name : string)
  (objects : gmap string Visibility) :
  is_Some (objects !! name) → isolated name (show name (hide_all objects)).
Proof.
  intros [obj Hobj]. unfold isolated, show, hide_all. split.
  - rewrite lookup_alter, decide_True, lookup_fmap, Hobj by done. done.
  - intros other v Hne. rewrite lookup_alter, decide_False, lookup_fmap by done.
    destruct (objects !! other); simpl; [|done]. by intros [= <-].
Qed.

(** *** The validity check only looks at which objects exist *)

Lemma validate_dom (o1 o2 : gmap string Visibility) (item : BatchItem) :
  dom o1 = dom o2 → validate o1 item = validate o2 item.
Proof.
  intros Hdom. destruct item as [name|]; [|done]. simpl.
  assert (Hiff : is_Some (o1 !! name) ↔ is_Some (o2 !! name))
    by (by rewrite <- !elem_of_dom, Hdom).
  destruct (o1 !! name) eqn:H1, (o2 !! name) eqn:H2; try done.
  - destruct Hiff as [Hiff _]. destruct Hiff as [? [=]]. eauto.
  - destruct Hiff as [_ Hiff]. destruct Hiff as [? [=]]. eauto.
Qed.

Lemma validate_Some (objects : gmap string Visibility) (item : BatchItem)
  (name : string) :
  validate objects item = Some name →
  item = Some name ∧ is_Some (objects !! name).
Proof.
  destruct item as [n|]; [|done]. simpl.
  destruct (objects !! n) eqn:Hn; [|done]. intros [= ->]. eauto.
Qed.

Lemma valid_indices_S (b : Blender) (k : nat) :
  valid_indices b (S k)
  = (valid_indices b k ++ (if valid_entry b k then [k] else []))%list.
Proof.
  unfold valid_indices. rewrite seq_S, filter_app. f_equal. simpl.
  destruct (valid_entry b k) eqn:Hk.
  - by rewrite filter_cons_True.
  - rewrite filter_cons_False; [done|]. by rewrite Hk.
Qed.

Lemma batch_filepath_expected (b0 : Blender) (sc : Scene) (name : string)
  (index : nat) :
  batch_render_path sc = batch_render_path (scene b0) →
  batch_render_prefix sc = batch_render_prefix (scene b0) →
  file_format sc = file_format (scene b0) →
  batch_filepath sc name index = expected_filepath b0 name index.
Proof.
  intros Hpath Hprefix Hformat.
  unfold batch_filepath, batch_filename, expected_filepath, get_file_extension.
  rewrite Hpath, Hprefix, Hformat.
  by destruct (String.eqb (strip (batch_render_prefix (scene b0))) EmptyString).
Qed.

(** *** finish_batch_render *)

Section Finish.
Variables (b0 : Blender) (o : Oracle).

Lemma finish_frame (cancelled : bool) (st : State) :
  Frame b0 st → Frame b0 (finish_batch_render o cancelled st).
Proof.
  intros [Hitems Hpath Hprefix Hformat Hdom Htotal Horig Hcalls].
  unfold finish_batch_render.
  destruct (_timer (self st)), cancelled; constructor; simpl; try done.
  all: by rewrite dom_restore_visibility.
Qed.

Lemma finish_self (cancelled : bool) (st : State) :
  _is_running (self (finish_batch_render o cancelled st)) = false ∧
  _current_index (self (finish_batch_render o cancelled st)) = 0 ∧
  _visibility_states (self (finish_batch_render o cancelled st)) = ∅ ∧
  render_calls (finish_batch_render o cancelled st)
    = render_calls st ∧
  reports (finish_batch_render o cancelled st) = reports st.
Proof.
  unfold finish_batch_render.
  by destruct (_timer (self st)), cancelled.
Qed.

Lemma finish_restored (cancelled : bool) (st : State) :
  data_objects (bl (finish_batch_render o cancelled st))
    = restore_visibility (_visibility_states (self st)) (data_objects (bl st)) ∧
  render_filepath (scene (bl (finish_batch_render o cancelled st)))
    = _original_filepath (self st).
Proof.
  unfold finish_batch_render.
  by destruct (_timer (self st)), cancelled.
Qed.

Lemma finish_scene_cancelled (st : State) :
  let sc := scene (bl (finish_batch_render o true st)) in
  batch_render_progress sc = float_of_int 0 ∧
  batch_render_status sc = "Cancelled by user" ∧
  batch_render_eta sc = EmptyString ∧
  batch_render_current_object sc = EmptyString ∧
  batch_render_cancelled sc = false.
Proof.
  unfold finish_batch_render. by destruct (_timer (self st)).
Qed.

Lemma finish_scene_completed (st : State) :
  let sc := scene (bl (finish_batch_render o false st)) in
  batch_render_progress sc = float_of_int 100 ∧
  batch_render_current_object sc = EmptyString ∧
  batch_render_cancelled sc = batch_render_cancelled (scene (bl st)).
Proof.
  unfold finish_batch_render. by destruct (_timer (self st)).
Qed.

(** Finishing after the last entry. *)
Lemma finish_completed (strict : bool) (st : State) :
  Frame b0 st →
  _visibility_states (self st) = data_objects b0 →
  (strict = true → batch_render_cancelled (scene (bl st)) = false) →
  rendered_indices st
    = valid_indices b0 (length (batch_render_objects (scene b0))) →
  Inv b0 strict (finish_batch_render o false st).
Proof.
  intros HF Hsaved Hflag Hcalls.
  destruct (finish_self false st) as (Hrun & _ & Hvis & Hrc & _).
  destruct (finish_restored false st) as (Hobj & Hfp).
  destruct (finish_scene_completed st) as (Hprog & _ & Hc).
  constructor.
  - by apply finish_frame.
  - intros Hs. rewrite Hc. auto.
  - rewrite Hrun. split_and!.
    + rewrite Hobj, Hsaved. apply restore_visibility_saved. apply HF.
    + rewrite Hfp. apply HF.
    + done.
    + exists (length (batch_render_objects (scene b0))). split; [done|].
      unfold rendered_indices in *. by rewrite Hrc.
    + intros _. split; [|done]. unfold rendered_indices in *. by rewrite Hrc.
Qed.

(** Finishing on cancellation, from any state between two events. *)
Lemma finish_cancelled (st : State) :
  Inv b0 false st → Inv b0 false (finish_batch_render o true st).
Proof.
  intros [HF _ Hphase].
  destruct (finish_self true st) as (Hrun & _ & Hvis & Hrc & _).
  destruct (finish_restored true st) as (Hobj & Hfp).
  constructor.
  - by apply finish_frame.
  - done.
  - rewrite Hrun. split_and!; try done.
    + rewrite Hobj. destruct (_is_running (self st)).
      * destruct Hphase as (-> & _). apply restore_visibility_saved, HF.
      * destruct Hphase as (Ho & _ & -> & _).
        by rewrite restore_visibility_nothing.
    + rewrite Hfp. apply HF.
    + unfold rendered_indices in *. rewrite Hrc.
      destruct (_is_running (self st)).
      * destruct Hphase as (_ & Hlt & Hc & _). eexists. split; [|exact Hc]. lia.
      * by destruct Hphase as (_ & _ & _ & Hk & _).
Qed.

End Finish.

(** *** render_next_object *)

Section RenderNext.
Variables (b0 : Blender) (strict : bool) (o : Oracle).

Local Abbreviation n := (length (batch_render_objects (scene b0))).

Lemma valid_entry_current (st : State) :
  Frame b0 st →
  valid_entry b0 (_current_index (self st))
  = match validate (data_objects (bl st))
            (default None
               (batch_render_objects (scene (bl st)) !! _current_index (self st)))
    with
    | Some _ => true
    | None => false
    end.
Proof.
  intros HF. unfold valid_entry.
  rewrite (frame_items _ _ HF).
  by rewrite (validate_dom _ _ _ (frame_dom _ _ HF)).
Qed.

Lemma advance_spec (next : State → State) (st : State) :
  Frame b0 st →
  _is_running (self st) = true →
  _visibility_states (self st) = data_objects b0 →
  (strict = true → batch_render_cancelled (scene (bl st)) = false) →
  _current_index (self st) < n →
  rendered_indices st = valid_indices b0 (S (_current_index (self st))) →
  (∀ st', Mid b0 st' →
          (strict = true → batch_render_cancelled (scene (bl st')) = false) →
          _current_index (self st') = S (_current_index (self st)) →
          _current_index (self st') < n →
          Inv b0 strict (next st')) →
  Inv b0 strict (advance next o st).
Proof.
  intros HF Hrun Hsaved Hflag Hlt Hcalls Hnext.
  unfold advance.
  set (st1 := on_self (self_set_current_index (_current_index (self st) + 1)) st).
  assert (HF1 : Frame b0 st1) by (destruct HF; by constructor).
  assert (Hcalls1 : rendered_indices st1
                    = valid_indices b0 (_current_index (self st1))).
  { unfold rendered_indices in *. simpl. by rewrite Hcalls, Nat.add_1_r. }
  assert (Hidx1 : _current_index (self st1) = S (_current_index (self st)))
    by (simpl; lia).
  rewrite (frame_items _ _ HF1). fold n.
  destruct (_current_index (self st1) <? n) eqn:Hnext_lt.
  - apply Nat.ltb_lt in Hnext_lt. apply Hnext; try done.
    constructor; try done. fold n. lia.
  - apply Nat.ltb_ge in Hnext_lt.
    apply (finish_completed b0 o strict st1); try done.
    rewrite Hcalls1. fold n. f_equal. lia.
Qed.

Lemma render_next_object_rec_spec (fuel : nat) (st : State) :
  Mid b0 st →
  (strict = true → batch_render_cancelled (scene (bl st)) = false) →
  _current_index (self st) < n →
  n - _current_index (self st) ≤ fuel →
  Inv b0 strict (render_next_object_rec fuel o st).
Proof.
  revert st. induction fuel as [|fuel IH]; intros st HM Hflag Hlt Hfuel;
    [lia|].
  destruct HM as [HF Hrun Hsaved Hle Hcalls].
  pose proof (valid_entry_current st HF) as Hvalid.
  simpl. rewrite (frame_items _ _ HF). fold n.
  replace (n <=? _current_index (self st)) with false
    by (symmetry; apply Nat.leb_gt; lia).
  rewrite (frame_items _ _ HF) in Hvalid.
  destruct (validate (data_objects (bl st))
              (default None
                 (batch_render_objects (scene b0) !! _current_index (self st))))
    as [name|] eqn:Hv.
  - (* a valid entry: its render is requested *)
    apply validate_Some in Hv as [Hitem Hname].
    assert (Hentry : batch_render_objects (scene b0) !! _current_index (self st)
                     = Some (Some name)).
    { destruct (batch_render_objects (scene b0) !! _current_index (self st));
        simpl in Hitem; by subst. }
    assert (Hok : ∀ raised,
      call_ok b0
        {| rc_index := _current_index (self st); rc_object := name;
           rc_filepath :=
             batch_filepath (scene (bl st)) name (_current_index (self st));
           rc_visibility := show name (hide_all (data_objects (bl st)));
           rc_raised := raised |}).
    { intros raised. constructor; simpl; try done.
      - apply batch_filepath_expected; apply HF.
      - by apply show_hide_all_isolated.
      - rewrite dom_show_hide_all. apply HF. }
    assert (Hidx : valid_indices b0 (S (_current_index (self st)))
                   = (valid_indices b0 (_current_index (self st))
                        ++ [_current_index (self st)])%list)
      by (by rewrite valid_indices_S, Hvalid).
    destruct (render_raises o (_current_index (self st))).
    + apply advance_spec; simpl; try done.
      * destruct HF. constructor; simpl; try done.
        -- by rewrite dom_show_hide_all.
        -- apply Forall_app. split; [done|]. constructor; [apply Hok|done].
      * unfold rendered_indices in *. simpl.
        by rewrite fmap_app, Hcalls, Hidx.
      * intros st' HM' Hflag' Hidx' Hlt'. apply IH; try done. lia.
    + constructor; simpl.
      * destruct HF. constructor; simpl; try done.
        -- by rewrite dom_show_hide_all.
        -- apply Forall_app. split; [done|]. constructor; [apply Hok|done].
      * done.
      * rewrite Hrun. split_and!; try done.
        -- unfold rendered_indices in *. simpl.
           by rewrite fmap_app, Hcalls, Hidx.
        -- by eexists _, _.
  - (* an invalid entry is skipped *)
    apply advance_spec; try done.
    + rewrite Hcalls, valid_indices_S, Hvalid. by rewrite app_nil_r.
    + intros st' HM' Hflag' Hidx' Hlt'. apply IH; try done. lia.
Qed.

Lemma render_next_object_spec (st : State) :
  Mid b0 st →
  (strict = true → batch_render_cancelled (scene (bl st)) = false) →
  _current_index (self st) < n →
  Inv b0 strict (render_next_object o st).
Proof.
  intros HM Hflag Hlt. unfold render_next_object.
  apply render_next_object_rec_spec; try done.
  rewrite (frame_items _ _ (mid_frame _ _ HM)). done.
Qed.

End RenderNext.

(** The fuel given by [render_next_object] is enough: with at least as much
    as there are entries left, the result does not depend on it. *)
Lemma render_next_object_rec_fuel (o : Oracle) (fuel1 fuel2 : nat)
  (st : State) :
  length (batch_render_objects (scene (bl st))) - _current_index (self st)
    ≤ fuel1 →
  length (batch_render_objects (scene (bl st))) - _current_index (self st)
    ≤ fuel2 →
  render_next_object_rec fuel1 o st = render_next_object_rec fuel2 o st.
Proof.
  revert fuel2 st. induction fuel1 as [|fuel1 IH]; intros fuel2 st H1 H2.
  - destruct fuel2; simpl; [done|].
    destruct (_ <=? _) eqn:Hguard; [done|]. apply Nat.leb_gt in Hguard. lia.
  - destruct fuel2; simpl.
    { destruct (_ <=? _) eqn:Hguard; [done|]. apply Nat.leb_gt in Hguard. lia. }
    destruct (_ <=? _) eqn:Hguard; [done|]. apply Nat.leb_gt in Hguard.
    assert (Hadv : ∀ st1,
      batch_render_objects (scene (bl st1)) = batch_render_objects (scene (bl st)) →
      _current_index (self st1) = _current_index (self st) →
      advance (render_next_object_rec fuel1 o) o st1
      = advance (render_next_object_rec fuel2 o) o st1).
    { intros st1 Hitems Hidx. unfold advance.
      match goal with |- context [if ?c then _ else _] => destruct c end;
        [|done].
      apply IH; simpl; rewrite Hitems, Hidx; lia. }
    destruct (validate _ _); [|by apply Hadv].
    destruct (render_raises o _); [by apply Hadv|done].
Qed.

Lemma render_next_object_fuel (o : Oracle) (fuel : nat) (st : State) :
  length (batch_render_objects (scene (bl st))) - _current_index (self st)
    ≤ fuel →
  render_next_object_rec fuel o st = render_next_object o st.
Proof.
  intros Hfuel. unfold render_next_object.
  by apply render_next_object_rec_fuel.
Qed.

(** *** update_progress_info *)

Lemma update_progress_info_inv (b0 : Blender) (strict : bool) (o : Oracle)
  (st : State) :
  _is_running (self st) = true →
  Inv b0 strict st → Inv b0 strict (update_progress_info o st).
Proof.
  intros Hrun [HF Hflag Hphase]. unfold update_progress_info.
  destruct ((0 <? _total_objects (self st)) && (0 <? _current_index (self st)));
    [|done].
  constructor; simpl.
  - destruct HF. by constructor.
  - done.
  - by rewrite Hrun in *.
Qed.

Lemma update_progress_info_self (o : Oracle) (st : State) :
  self (update_progress_info o st) = self st ∧
  render_calls (update_progress_info o st) = render_calls st ∧
  data_objects (bl (update_progress_info o st)) = data_objects (bl st).
Proof.
  unfold update_progress_info.
  by destruct ((0 <? _total_objects (self st)) && (0 <? _current_index (self st))).
Qed.

Lemma update_progress_info_progress (o : Oracle) (st : State) :
  batch_render_progress (scene (bl (update_progress_info o st)))
  = if (0 <? _total_objects (self st)) && (0 <? _current_index (self st))
    then percent (_current_index (self st)) (_total_objects (self st))
    else batch_render_progress (scene (bl st)).
Proof.
  unfold update_progress_info.
  by destruct ((0 <? _total_objects (self st)) && (0 <? _current_index (self st))).
Qed.

(** *** modal, execute and whole runs *)

Lemma Inv_weaken (b0 : Blender) (st : State) :
  Inv b0 true st → Inv b0 false st.
Proof.
  intros [HF Hflag Hphase]. constructor; [done|done|].
  destruct (_is_running (self st)); [done|].
  destruct Hphase as (? & ? & ? & ? & ?). by split_and!.
Qed.

Lemma modal_inv (b0 : Blender) (strict : bool) (event : Event) (o : Oracle)
  (st : State) :
  Inv b0 strict st → Inv b0 strict (fst (modal event o st)).
Proof.
  intros HI. destruct event; [|done]. unfold modal.
  destruct (batch_render_cancelled (scene (bl st))) eqn:Hc.
  { (* cancelled *)
    destruct strict.
    - pose proof (inv_flag _ _ _ HI eq_refl). congruence.
    - cbn [fst]. by apply finish_cancelled. }
  destruct (negb (default false (job_running o)) && _is_running (self st))
    eqn:Hgo.
  - (* the current render is over: move to the next object *)
    apply andb_true_iff in Hgo as [_ Hrun].
    destruct HI as [HF Hflag Hphase]. rewrite Hrun in Hphase.
    destruct Hphase as (Hsaved & Hlt & Hcalls & _).
    set (st1 := on_scene _ st).
    set (st2 := on_self _ st1).
    assert (HF2 : Frame b0 st2) by (destruct HF; by constructor).
    assert (HM2 : Mid b0 st2).
    { constructor; try done.
      - simpl. lia.
      - unfold rendered_indices in *. simpl. by rewrite Hcalls, Nat.add_1_r. }
    rewrite (frame_items _ _ HF2).
    destruct (_current_index (self st2)
                <? length (batch_render_objects (scene b0))) eqn:Hmore.
    + apply Nat.ltb_lt in Hmore.
      assert (HI3 : Inv b0 strict (render_next_object o st2)).
      { apply render_next_object_spec; try done. }
      cbn [fst].
      destruct (_is_running (self (render_next_object o st2))) eqn:Hrun3;
        [by apply update_progress_info_inv|done].
    + apply Nat.ltb_ge in Hmore. cbn [fst].
      apply finish_completed; try done.
      rewrite (mid_calls _ _ HM2). f_equal. simpl in *. lia.
  - cbn [fst]. destruct (_is_running (self st)) eqn:Hrun;
      [by apply update_progress_info_inv|done].
Qed.

(** An event that ends the modal operator leaves the batch stopped. *)
Lemma modal_ended (event : Event) (o : Oracle) (st : State) :
  snd (modal event o st) = FINISHED ∨ snd (modal event o st) = CANCELLED →
  _is_running (self (fst (modal event o st))) = false.
Proof.
  destruct event; [|by intros [|]]. unfold modal.
  destruct (batch_render_cancelled (scene (bl st))).
  { intros _. apply finish_self. }
  destruct (negb (default false (job_running o)) && _is_running (self st));
    [|by intros [|]].
  match goal with |- context [if ?c then _ else _] => destruct c end.
  - by intros [|].
  - intros _. apply finish_self.
Qed.

Lemma cancel_batch_inv (b0 : Blender) (st : State) :
  Inv b0 false st → Inv b0 false (fst (cancel_batch st)).
Proof.
  intros [HF _ Hphase]. constructor; simpl.
  - destruct HF. by constructor.
  - done.
  - done.
Qed.

Lemma execute_started (fs : FileSystem) (o : Oracle) (b0 : Blender) :
  snd (execute fs o b0) = RUNNING_MODAL →
  batch_render_objects (scene b0) ≠ [] ∧
  ∃ st1,
    fst (execute fs o b0) =
      report INFO
        ("Batch render started: "
           +:+ pretty (_total_objects (self (on_self (self_set_timer true)
                                               (render_next_object o st1))))
           +:+ " objects")
        (on_self (self_set_timer true) (render_next_object o st1)) ∧
    Mid b0 st1 ∧ _current_index (self st1) = 0 ∧
    batch_render_cancelled (scene (bl st1)) = false ∧
    batch_render_progress (scene (bl st1)) = float_of_int 0.
Proof.
  unfold execute.
  destruct (length (batch_render_objects (scene b0)) =? 0) eqn:Hlen; [done|].
  apply Nat.eqb_neq in Hlen.
  destruct (String.eqb (batch_render_path (scene b0)) EmptyString); [done|].
  destruct (if fs_exists fs (abspath (batch_render_path (scene b0)))
            then MkOk
            else fs_makedirs fs (abspath (batch_render_path (scene b0))));
    [|done|done].
  destruct (negb (fs_access_w fs (abspath (batch_render_path (scene b0)))));
    [done|].
  intros _. split; [by destruct (batch_render_objects (scene b0))|].
  destruct (fs_disk_free fs (abspath (batch_render_path (scene b0))))
    as [free|]; [destruct (free <? 100 * 1024 * 1024)%Z|].
  all: eexists; split; [reflexivity|]; split_and!; try done.
  all: constructor; simpl; try done; try lia.
  all: try (by rewrite save_visibility_id).
  all: by constructor.
Qed.

(** Unless it finishes the batch, [render_next_object] leaves the progress
    value and the cancel flag alone and never moves the index back. *)
Lemma render_next_object_rec_keeps (o : Oracle) (fuel : nat) (st : State) :
  let st' := render_next_object_rec fuel o st in
  _is_running (self st') = false ∨
  (batch_render_progress (scene (bl st')) = batch_render_progress (scene (bl st)) ∧
   _current_index (self st) ≤ _current_index (self st') ∧
   _is_running (self st') = _is_running (self st)).
Proof.
  revert st. induction fuel as [|fuel IH]; intros st; simpl.
  { destruct (_ <=? _); right; by split_and!. }
  destruct (_ <=? _); [right; by split_and!|].
  assert (Hadv : ∀ st1,
    let st' := advance (render_next_object_rec fuel o) o st1 in
    _is_running (self st') = false ∨
    (batch_render_progress (scene (bl st'))
       = batch_render_progress (scene (bl st1)) ∧
     _current_index (self st1) ≤ _current_index (self st') ∧
     _is_running (self st') = _is_running (self st1))).
  { intros st1. unfold advance.
    match goal with |- context [if ?c then _ else _] => destruct c end.
    - destruct (IH (on_self (self_set_current_index
                               (_current_index (self st1) + 1)) st1))
        as [Hstop|(Hp & Hi & Hr)]; [by left|right].
      simpl in *. split_and!; [done|lia|done].
    - left. apply finish_self. }
  destruct (validate _ _) as [name|]; [|apply Hadv].
  destruct (render_raises o (_current_index (self st))).
  - match goal with |- context [advance _ _ ?s] => destruct (Hadv s) as [?|(?&?&?)] end;
      [by left|right]. simpl in *. by split_and!.
  - right. by split_and!.
Qed.

Lemma Inv_timer_report (b0 : Blender) (strict : bool) (level : Level)
  (msg : string) (st : State) :
  Inv b0 strict st →
  Inv b0 strict (report level msg (on_self (self_set_timer true) st)).
Proof.
  intros [HF Hflag Hphase]. constructor; simpl; try done.
  destruct HF. by constructor.
Qed.

(** A batch that [execute] started satisfies the invariant, in a run with
    and in a run without cancellation, and shows progress [0] as long as it
    runs. *)
Lemma execute_inv (fs : FileSystem) (o : Oracle) (b0 : Blender)
  (strict : bool) :
  snd (execute fs o b0) = RUNNING_MODAL →
  Inv b0 strict (fst (execute fs o b0)) ∧
  (_is_running (self (fst (execute fs o b0))) = true →
   batch_render_progress (scene (bl (fst (execute fs o b0)))) = float_of_int 0).
Proof.
  intros Hres.
  destruct (execute_started fs o b0 Hres)
    as (Hne & st1 & -> & HM & Hidx & Hflag & Hprog).
  assert (Hlt : _current_index (self st1)
                < length (batch_render_objects (scene b0))).
  { rewrite Hidx. destruct (batch_render_objects (scene b0)); simpl; [done|lia]. }
  split.
  - apply Inv_timer_report. apply render_next_object_spec; try done.
  - simpl. intros Hrun.
    destruct (render_next_object_rec_keeps o
                (length (batch_render_objects (scene (bl st1)))
                   - _current_index (self st1)) st1) as [Hstop|(Hp & _)].
    + unfold render_next_object in Hrun. congruence.
    + unfold render_next_object. by rewrite Hp.
Qed.

Lemma run_inv (b0 : Blender) (strict : bool) (actions : list Action)
  (st : State) :
  (strict = true → Forall (λ a, is_deliver a = true) actions) →
  Inv b0 strict st → Inv b0 strict (fst (run actions st)).
Proof.
  revert st. induction actions as [|a actions IH]; intros st Hacts HI; [done|].
  assert (Hrest : strict = true → Forall (λ a, is_deliver a = true) actions).
  { intros Hs. specialize (Hacts Hs). by inversion Hacts. }
  destruct a as [event o|]; simpl.
  - pose proof (modal_inv b0 strict event o st HI) as HI'.
    destruct (modal event o st) as [st' r]. simpl in HI'.
    destruct r; auto.
  - destruct strict.
    + specialize (Hacts eq_refl). inversion Hacts; done.
    + apply IH; [done|]. by apply cancel_batch_inv.
Qed.

(** Once the modal operator has returned [FINISHED] or [CANCELLED], the
    batch is stopped. *)
Lemma run_ended (actions : list Action) (st : State) (r : Result) :
  snd (run actions st) = Some r →
  (r = FINISHED ∨ r = CANCELLED) ∧
  _is_running (self (fst (run actions st))) = false.
Proof.
  revert st. induction actions as [|a actions IH]; intros st; [done|].
  destruct a as [event o|]; simpl; [|apply IH].
  pose proof (modal_ended event o st) as Hend.
  destruct (modal event o st) as [st' r']. simpl in Hend.
  destruct r'; simpl; try apply IH.
  - intros [= <-]. split; [by right|]. apply Hend. by right.
  - intros [= <-]. split; [by left|]. apply Hend. by left.
Qed.

(** *** Termination restores the scene *)

(** C1: when a batch render has terminated, by completion or by
    cancellation, the scene's render filepath and the [hide_viewport] and
    [hide_render] flags of every object recorded at batch start are the ones
    they were when the batch started. *)
Theorem batch_termination_restores (fs : FileSystem) (o : Oracle)
  (b : Blender) (actions : list Action) :
  snd (execute fs o b) = RUNNING_MODAL →
  let st := run actions (fst (execute fs o b)) in
  is_Some (snd st) ∨ _is_running (self (fst st)) = false →
  render_filepath (scene (bl (fst st))) = render_filepath (scene b) ∧
  data_objects (bl (fst st)) = data_objects b ∧
  ∀ name saved, data_objects b !! name = Some saved →
    ∃ obj, data_objects (bl (fst st)) !! name = Some obj ∧
           hide_viewport obj = hide_viewport saved ∧
           hide_render obj = hide_render saved.
Proof.
  intros Hres st Hend.
  assert (Hstop : _is_running (self (fst st)) = false).
  { destruct Hend as [[r Hr]|]; [|done]. by apply run_ended in Hr as [_ ?]. }
  destruct (execute_inv fs o b false Hres) as [HI _].
  apply (run_inv b false actions) in HI; [|done].
  destruct HI as [_ _ Hphase]. fold st in Hphase. rewrite Hstop in Hphase.
  destruct Hphase as (Hobj & Hfp & _). split_and!; [done|done|].
  intros name saved Hsaved. exists saved. by rewrite Hobj.
Qed.

(** *** Rejected starts *)

(** C6: starting a batch render fails with [CANCELLED] and one error
    report, without starting a render and without changing any object's
    visibility (or anything else in the host data), whenever the batch list
    is empty, the output path is unset, the output directory does not exist
    and cannot be created, or the output directory is not writable. *)
Theorem execute_rejects (fs : FileSystem) (o : Oracle) (b : Blender) :
  let output_path := abspath (batch_render_path (scene b)) in
  batch_render_objects (scene b) = [] ∨
  batch_render_path (scene b) = EmptyString ∨
  (fs_exists fs output_path = false ∧ fs_makedirs fs output_path ≠ MkOk) ∨
  fs_access_w fs output_path = false →
  snd (execute fs o b) = CANCELLED ∧
  render_calls (fst (execute fs o b)) = [] ∧
  bl (fst (execute fs o b)) = b ∧
  data_objects (bl (fst (execute fs o b))) = data_objects b ∧
  ∃ msg, reports (fst (execute fs o b)) = [(ERROR, msg)].
Proof.
  intros output_path Hcond. unfold execute. fold output_path.
  destruct (length (batch_render_objects (scene b)) =? 0) eqn:Hlen.
  { split_and!; try done. by eexists. }
  destruct (String.eqb (batch_render_path (scene b)) EmptyString) eqn:Hpath.
  { split_and!; try done. by eexists. }
  apply Nat.eqb_neq in Hlen. apply String.eqb_neq in Hpath.
  destruct Hcond as [Hnil|[Hunset|Hcond]];
    [by rewrite Hnil in Hlen|done|].
  destruct (fs_exists fs output_path) eqn:Hex.
  - destruct Hcond as [[? _]|Hw]; [done|]. rewrite Hw. simpl.
    split_and!; try done. by eexists.
  - destruct (fs_makedirs fs output_path) eqn:Hmk.
    + destruct Hcond as [[_ ?]|Hw]; [done|]. rewrite Hw. simpl.
      split_and!; try done. by eexists.
    + split_and!; try done. by eexists.
    + split_and!; try done. by eexists.
Qed.

(** In every other case the batch starts. *)
Lemma execute_starts (fs : FileSystem) (o : Oracle) (b : Blender) :
  let output_path := abspath (batch_render_path (scene b)) in
  batch_render_objects (scene b) ≠ [] →
  batch_render_path (scene b) ≠ EmptyString →
  fs_exists fs output_path = true ∨ fs_makedirs fs output_path = MkOk →
  fs_access_w fs output_path = true →
  snd (execute fs o b) = RUNNING_MODAL.
Proof.
  intros output_path Hitems Hpath Hdir Hw. unfold execute. fold output_path.
  destruct (batch_render_objects (scene b)) as [|item items]; [done|].
  simpl length. cbn [Nat.eqb].
  apply String.eqb_neq in Hpath. rewrite Hpath, Hw.
  destruct (fs_exists fs output_path).
  - done.
  - destruct Hdir as [Hex | Hmk]; [done|]. by rewrite Hmk.
Qed.

(** *** What each render call sees *)

Lemma run_calls_ok (fs : FileSystem) (o : Oracle) (b : Blender)
  (actions : list Action) :
  snd (execute fs o b) = RUNNING_MODAL →
  Forall (call_ok b) (render_calls (fst (run actions (fst (execute fs o b))))).
Proof.
  intros Hres.
  destruct (execute_inv fs o b false Hres) as [HI _].
  apply (run_inv b false actions) in HI; [|done].
  apply HI.
Qed.

(** C4: whenever the sequencer starts the render of list entry [i], the
    object of entry [i] has [hide_render] and [hide_viewport] set to
    [False], and every other object has both set to [True]; the objects seen
    by the render are exactly those that existed at batch start. *)
Theorem render_call_isolated (fs : FileSystem) (o : Oracle) (b : Blender)
  (actions : list Action) (rc : RenderCall) :
  snd (execute fs o b) = RUNNING_MODAL →
  rc ∈ render_calls (fst (run actions (fst (execute fs o b)))) →
  batch_render_objects (scene b) !! rc_index rc = Some (Some (rc_object rc)) ∧
  rc_visibility rc !! rc_object rc
    = Some {| hide_viewport := false; hide_render := false |} ∧
  (∀ other v, other ≠ rc_object rc → rc_visibility rc !! other = Some v →
     v = {| hide_viewport := true; hide_render := true |}) ∧
  dom (rc_visibility rc) = dom (data_objects b).
Proof.
  intros Hres Hin.
  pose proof (run_calls_ok fs o b actions Hres) as Hall.
  rewrite Forall_forall in Hall. destruct (Hall rc Hin) as [? ? ? [? ?] ?].
  by split_and!.
Qed.

(** C7, amended: for list entry [i] (0-based) holding object [N], with
    user prefix [P], the filepath of the batch render is the output
    directory joined with ["S_C_NNN"], or ["C_NNN"] when [S] is empty,
    followed by the extension; [S] is [P] with surrounding whitespace
    stripped, [C] the cleaned object name, [NNN] the 1-based index
    zero-padded to three digits, and the extension the one mapped from the
    image file format, ['.png'] for unmapped formats. *)
Theorem render_call_filepath (fs : FileSystem) (o : Oracle) (b : Blender)
  (actions : list Action) (rc : RenderCall) :
  snd (execute fs o b) = RUNNING_MODAL →
  rc ∈ render_calls (fst (run actions (fst (execute fs o b)))) →
  let i := rc_index rc in
  let N := rc_object rc in
  let stripped := strip (batch_render_prefix (scene b)) in
  let C := clean_name N in
  let NNN := format_0d 3 (Z.of_nat i + 1) in
  let extension :=
    default ".png" (batch_extensions !! file_format (scene b)) in
  batch_render_objects (scene b) !! i = Some (Some N) ∧
  rc_filepath rc
  = path_join (abspath (batch_render_path (scene b)))
      ((if String.eqb stripped EmptyString then C +:+ "_" +:+ NNN
        else stripped +:+ "_" +:+ C +:+ "_" +:+ NNN) +:+ extension).
Proof.
  intros Hres Hin.
  pose proof (run_calls_ok fs o b actions Hres) as Hall.
  rewrite Forall_forall in Hall. destruct (Hall rc Hin) as [? ? Hfp _ _].
  split; [done|]. exact Hfp.
Qed.

(** *** Cancellation *)

(** C5: if the cancel operator sets the cancelled flag while the batch
    operator is modal, then on the next timer event the sequencer starts no
    further render, restores filepath and visibility to their values at
    batch start, sets the status to "Cancelled by user", resets the progress
    to 0, clears the cancelled flag, stops the batch and returns
    [CANCELLED]. *)
Theorem cancel_on_next_timer (fs : FileSystem) (o0 o : Oracle) (b : Blender)
  (actions : list Action) :
  snd (execute fs o0 b) = RUNNING_MODAL →
  snd (run actions (fst (execute fs o0 b))) = None →
  let st := fst (run actions (fst (execute fs o0 b))) in
  let cancelled := fst (cancel_batch st) in
  let st' := fst (modal TIMER o cancelled) in
  batch_render_cancelled (scene (bl cancelled)) = true ∧
  snd (modal TIMER o cancelled) = CANCELLED ∧
  render_calls st' = render_calls st ∧
  data_objects (bl st') = data_objects b ∧
  render_filepath (scene (bl st')) = render_filepath (scene b) ∧
  batch_render_status (scene (bl st')) = "Cancelled by user" ∧
  batch_render_progress (scene (bl st')) = float_of_int 0 ∧
  batch_render_cancelled (scene (bl st')) = false ∧
  _is_running (self st') = false.
Proof.
  intros Hres _ st cancelled st'.
  destruct (execute_inv fs o0 b false Hres) as [HI _].
  apply (run_inv b false actions) in HI; [|done]. fold st in HI.
  apply cancel_batch_inv in HI. fold cancelled in HI.
  assert (Hflag : batch_render_cancelled (scene (bl cancelled)) = true) by done.
  assert (Hst' : st' = finish_batch_render o true cancelled).
  { subst st'. unfold modal. by rewrite Hflag. }
  assert (Hr : snd (modal TIMER o cancelled) = CANCELLED).
  { unfold modal. by rewrite Hflag. }
  pose proof (finish_cancelled b o cancelled HI) as [_ _ Hphase].
  rewrite <- Hst' in Hphase.
  destruct (finish_self o true cancelled) as (Hrun & _ & _ & Hrc & _).
  destruct (finish_scene_cancelled o cancelled) as (Hp & Hs & _ & _ & Hc).
  rewrite <- Hst' in *. rewrite Hrun in Hphase.
  destruct Hphase as (Hobj & Hfp & _).
  by split_and!.
Qed.

(** *** Polling *)

(** C3, amended: [modal] requests the render of a further list entry only
    on a timer event whose poll did not report a running 'RENDER' job:
    [is_job_running] returned [False], or the call raised, which the code
    takes for "not running".  An event whose poll reports a running job
    starts no render. *)
Theorem modal_renders_only_when_not_polled_running (event : Event)
  (o : Oracle) (st : State) :
  render_calls (fst (modal event o st)) ≠ render_calls st →
  event = TIMER ∧
  (job_running o = Some false ∨ job_running o = None) ∧
  batch_render_cancelled (scene (bl st)) = false ∧
  _is_running (self st) = true.
Proof.
  destruct event; [|done]. unfold modal.
  destruct (batch_render_cancelled (scene (bl st))).
  { intros Hne. destruct Hne. apply finish_self. }
  assert (Hsame : render_calls
            (if _is_running (self st) then update_progress_info o st else st)
            = render_calls st).
  { destruct (_is_running (self st)); [apply update_progress_info_self|done]. }
  destruct (job_running o) as [[|]|]; simpl.
  - intros Hne. by destruct Hne.
  - destruct (_is_running (self st)) eqn:Hrun; [by auto|].
    intros Hne. by destruct Hne.
  - destruct (_is_running (self st)) eqn:Hrun; [by auto|].
    intros Hne. by destruct Hne.
Qed.

(** *** Traversal *)

Lemma valid_indices_bound (b : Blender) (k i : nat) :
  i ∈ valid_indices b k → i < k ∧ valid_entry b i = true.
Proof.
  unfold valid_indices. rewrite list_elem_of_filter, elem_of_seq.
  intros [? ?]. split; [lia|done].
Qed.

(** The valid indices come in increasing order, each once. *)
Lemma valid_indices_sorted (b : Blender) (k : nat) :
  StronglySorted lt (valid_indices b k).
Proof.
  induction k as [|k IH]; [constructor|].
  rewrite valid_indices_S. apply StronglySorted_app_2; [|done|].
  - intros i j Hi Hj. apply valid_indices_bound in Hi as [Hi _].
    destruct (valid_entry b k); [|by apply elem_of_nil in Hj].
    apply list_elem_of_singleton in Hj. lia.
  - destruct (valid_entry b k); repeat constructor.
Qed.

(** A timer event that finds no render running either ends a running batch
    or moves it to a later entry. *)
Lemma idle_tick_advances (b0 : Blender) (o : Oracle) (st : State) :
  Inv b0 true st →
  _is_running (self st) = true →
  default false (job_running o) = false →
  _is_running (self (fst (modal TIMER o st))) = false ∨
  _current_index (self st) < _current_index (self (fst (modal TIMER o st))).
Proof.
  intros HI Hrun Hidle. unfold modal.
  rewrite (inv_flag _ _ _ HI eq_refl), Hidle, Hrun. cbn [negb andb].
  match goal with |- context [if ?c then _ else _] => destruct c end;
    cbn [fst]; [|left; apply finish_self].
  unfold render_next_object.
  match goal with |- context [render_next_object_rec ?f o ?s] =>
    destruct (render_next_object_rec_keeps o f s) as [Hstop|(_ & Hidx & Hr)];
    set (st3 := render_next_object_rec f o s) in *
  end.
  - rewrite Hstop. by left.
  - simpl in Hr, Hidx. rewrite Hr, Hrun. right.
    destruct (update_progress_info_self o st3) as (-> & _). lia.
Qed.

(** Enough such events complete the batch. *)
Lemma idle_ticks_complete (b0 : Blender) (ticks : list Action) (st : State) :
  Inv b0 true st →
  Forall (λ a, is_idle_tick a = true) ticks →
  (_is_running (self st) = true →
   length (batch_render_objects (scene b0)) - _current_index (self st)
     ≤ length ticks) →
  _is_running (self (fst (run ticks st))) = false.
Proof.
  revert st. induction ticks as [|a ticks IH]; intros st HI Hticks Hlen.
  - simpl in *. destruct (_is_running (self st)) eqn:Hrun; [|done].
    destruct HI as [_ _ Hphase]. rewrite Hrun in Hphase.
    destruct Hphase as (_ & Hlt & _). specialize (Hlen eq_refl). lia.
  - inversion Hticks as [|? ? Ha Hrest]; subst.
    destruct a as [[|] o|]; try done. simpl in Ha.
    apply negb_true_iff in Ha. cbn [run].
    pose proof (modal_inv b0 true TIMER o st HI) as HI'.
    pose proof (modal_ended TIMER o st) as Hend.
    pose proof (idle_tick_advances b0 o st HI) as Hadv.
    assert (Hkeep : _is_running (self st) = false →
                    _is_running (self (fst (modal TIMER o st))) = false).
    { intros Hrun. unfold modal.
      rewrite (inv_flag _ _ _ HI eq_refl), Hrun, andb_false_r. done. }
    destruct (modal TIMER o st) as [st' r]. cbn [fst snd] in *.
    assert (Hnext : _is_running (self st') = true →
                    length (batch_render_objects (scene b0))
                      - _current_index (self st') ≤ length ticks).
    { intros Hrun'. destruct (_is_running (self st)) eqn:Hrun.
      - destruct (Hadv eq_refl Ha) as [?|?]; [congruence|].
        specialize (Hlen eq_refl). simpl in Hlen. lia.
      - rewrite Hkeep in Hrun'; done. }
    destruct r; cbn [fst]; auto.
Qed.

(** C2: an uncancelled batch render walks the list in index order.  At any
    moment the render calls made so far are those of the valid entries
    among the first [k], one call each, in increasing order of index; when
    the batch has stopped, [k] is the length of the list.  And the batch
    does reach the end: from any such moment, as many timer events that find
    no render running as the list has entries stop it, with every valid
    entry rendered. *)
Theorem batch_traverses_in_order (fs : FileSystem) (o : Oracle) (b : Blender)
  (actions : list Action) :
  snd (execute fs o b) = RUNNING_MODAL →
  Forall (λ a, is_deliver a = true) actions →
  let n := length (batch_render_objects (scene b)) in
  let st := fst (run actions (fst (execute fs o b))) in
  0 < n ∧
  StronglySorted lt (rendered_indices st) ∧
  (∃ k, k ≤ n ∧ rendered_indices st = valid_indices b k ∧
        (_is_running (self st) = false → k = n)) ∧
  (∀ ticks, Forall (λ a, is_idle_tick a = true) ticks → n ≤ length ticks →
     _is_running (self (fst (run ticks st))) = false ∧
     rendered_indices (fst (run ticks st)) = valid_indices b n).
Proof.
  intros Hres Hacts n st.
  destruct (execute_started fs o b Hres) as (Hne & _).
  destruct (execute_inv fs o b true Hres) as [HI _].
  apply (run_inv b true actions) in HI; [|done]. fold st in HI.
  assert (Hshape : ∃ k, k ≤ n ∧ rendered_indices st = valid_indices b k ∧
                        (_is_running (self st) = false → k = n)).
  { destruct HI as [_ _ Hphase].
    destruct (_is_running (self st)).
    - destruct Hphase as (_ & Hlt & Hcalls & _).
      exists (S (_current_index (self st))). split_and!; [subst n; lia|done|done].
    - destruct Hphase as (_ & _ & _ & _ & Hall).
      destruct (Hall eq_refl) as (Hcalls & _). exists n. by split_and!. }
  split_and!.
  - subst n. destruct (batch_render_objects (scene b)); simpl; [done|lia].
  - destruct Hshape as (k & _ & -> & _). apply valid_indices_sorted.
  - done.
  - intros ticks Hticks Hlen.
    assert (Hstop : _is_running (self (fst (run ticks st))) = false).
    { apply (idle_ticks_complete b); try done. intros _. subst n. lia. }
    split; [done|].
    assert (Hdel : Forall (λ a, is_deliver a = true) ticks).
    { eapply Forall_impl; [exact Hticks|]. by intros [[|] ?|]. }
    apply (run_inv b true ticks) in HI; [|done].
    destruct HI as [_ _ Hphase]. rewrite Hstop in Hphase.
    destruct Hphase as (_ & _ & _ & _ & Hall). by destruct (Hall eq_refl).
Qed.

(** *** Progress *)

Lemma progress_exact_weak (st : State) : progress_exact st → progress_weak st.
Proof.
  intros Hex Hrun. specialize (Hex Hrun).
  destruct (_current_index (self st) =? 0) eqn:Hk; [by left|right].
  apply Nat.eqb_neq in Hk. split; [lia|done].
Qed.

Lemma modal_progress_exact (b0 : Blender) (strict : bool) (o : Oracle)
  (st : State) :
  Inv b0 strict st → progress_weak st →
  progress_exact (fst (modal TIMER o st)).
Proof.
  intros HI Hweak Hrun'.
  pose proof (modal_inv b0 strict TIMER o st HI) as HI'.
  destruct HI' as [HF' _ Hphase']. rewrite Hrun' in Hphase'.
  destruct Hphase' as (_ & Hlt' & _).
  rewrite <- (frame_total _ _ HF') in Hlt'.
  revert Hrun' Hlt'. unfold modal.
  destruct (batch_render_cancelled (scene (bl st))).
  { cbn [fst]. intros Hrun'.
    by rewrite (proj1 (finish_self o true st)) in Hrun'. }
  assert (Hupd : ∀ s, 0 < _current_index (self s) ∨ progress_weak s →
            _is_running (self (update_progress_info o s)) = true →
            _current_index (self (update_progress_info o s))
              < _total_objects (self (update_progress_info o s)) →
            batch_render_progress (scene (bl (update_progress_info o s)))
            = if _current_index (self (update_progress_info o s)) =? 0
              then float_of_int 0
              else percent (_current_index (self (update_progress_info o s)))
                           (_total_objects (self (update_progress_info o s)))).
  { intros s Hs. rewrite update_progress_info_progress.
    destruct (update_progress_info_self o s) as (-> & _). intros Hr Hlt.
    replace (0 <? _total_objects (self s)) with true
      by (symmetry; apply Nat.ltb_lt; lia).
    cbn [andb]. destruct (_current_index (self s)) as [|k] eqn:Hk; [|done].
    cbn. destruct Hs as [?|Hw]; [lia|].
    destruct (Hw Hr) as [?|[? _]]; [done|lia]. }
  destruct (negb (default false (job_running o)) && _is_running (self st))
    eqn:Hgo.
  - match goal with |- context [if ?c then _ else _] => destruct c end;
      cbn [fst]; [|intros Hrun'; by rewrite (proj1 (finish_self o false _)) in Hrun'].
    unfold render_next_object.
    match goal with |- context [render_next_object_rec ?f o ?s] =>
      destruct (render_next_object_rec_keeps o f s) as [Hstop|(_ & Hidx & _)];
      set (st3 := render_next_object_rec f o s) in *
    end.
    + rewrite Hstop. congruence.
    + destruct (_is_running (self st3)) eqn:Hrun3; [|congruence].
      apply Hupd. left. simpl in Hidx. lia.
  - cbn [fst]. destruct (_is_running (self st)) eqn:Hrun; [|congruence].
    apply Hupd. by right.
Qed.

Lemma modal_progress_weak (b0 : Blender) (strict : bool) (event : Event)
  (o : Oracle) (st : State) :
  Inv b0 strict st → progress_weak st →
  progress_weak (fst (modal event o st)).
Proof.
  intros HI Hweak. destruct event; [|done].
  by eapply progress_exact_weak, modal_progress_exact.
Qed.

Lemma run_progress_weak (b0 : Blender) (actions : list Action) (st : State) :
  Inv b0 false st → progress_weak st → progress_weak (fst (run actions st)).
Proof.
  revert st. induction actions as [|a actions IH]; intros st HI Hweak; [done|].
  destruct a as [event o|]; simpl.
  - pose proof (modal_inv b0 false event o st HI) as HI'.
    pose proof (modal_progress_weak b0 false event o st HI Hweak) as Hweak'.
    destruct (modal event o st) as [st' r]. simpl in *.
    destruct r; auto.
  - apply IH; [by apply cancel_batch_inv|done].
Qed.

Lemma raised_partition (calls : list RenderCall) :
  length (filter (λ rc, rc_raised rc = false) calls)
  + length (filter (λ rc, rc_raised rc = true) calls)
  = length calls.
Proof.
  induction calls as [|rc calls IH]; [done|].
  destruct (rc_raised rc) eqn:Hr.
  - rewrite filter_cons_False, filter_cons_True by (by rewrite ?Hr).
    simpl. lia.
  - rewrite filter_cons_True, filter_cons_False by (by rewrite ?Hr).
    simpl. lia.
Qed.

Lemma valid_skipped_partition (b : Blender) (k : nat) :
  length (valid_indices b k) + skipped_entries b k = k.
Proof.
  unfold skipped_entries. induction k as [|k IH]; [done|].
  rewrite valid_indices_S, seq_S, filter_app, !length_app. simpl.
  destruct (valid_entry b k) eqn:Hk.
  - rewrite filter_cons_False by (by rewrite Hk). simpl. lia.
  - rewrite filter_cons_True by done. simpl. lia.
Qed.

(** While a batch runs, the current index counts the entries left behind:
    those rendered to the end, those whose render call raised, and those
    skipped as invalid. *)
Lemma running_index_accounting (b0 : Blender) (strict : bool) (st : State) :
  Inv b0 strict st → _is_running (self st) = true →
  _current_index (self st)
  = completed_renders st + failed_renders st
    + skipped_entries b0 (_current_index (self st)).
Proof.
  intros [HF _ Hphase] Hrun. rewrite Hrun in Hphase.
  destruct Hphase as (_ & _ & Hcalls & calls & rc & Hlog & Hidx & Hok).
  pose proof (frame_calls _ _ HF) as Hall. rewrite Hlog in Hall.
  apply Forall_app in Hall as [_ Hrc]. inversion Hrc as [|? ? Hrcok _]; subst.
  pose proof (call_valid _ _ Hrcok) as Hvalid. rewrite Hidx in Hvalid.
  pose proof (f_equal length Hcalls) as Hlen.
  unfold rendered_indices in Hlen.
  rewrite length_fmap, valid_indices_S, Hvalid, length_app in Hlen.
  simpl in Hlen.
  pose proof (raised_partition (render_calls st)) as Hpart.
  pose proof (valid_skipped_partition b0 (_current_index (self st))) as Hvs.
  assert (Hpos : 0 < length (filter (λ rc, rc_raised rc = false)
                               (render_calls st))).
  { rewrite Hlog, filter_app, length_app, filter_cons_True by done.
    simpl. lia. }
  unfold completed_renders, failed_renders. rewrite Hrun. lia.
Qed.

(** C8, amended: during a batch run over a list of [n] entries the
    progress is set to 0 at batch start; after every timer event that
    leaves the batch running it equals [(k / n) * 100], and 0 when [k] is 0,
    where [k] is the current index, that is the number of entries the
    sequencer has left behind: rendered to the end, failed to start, or
    skipped as invalid.  When the batch stops uncancelled it is 100. *)
Theorem progress_tracks_current_index (fs : FileSystem) (o0 : Oracle)
  (b : Blender) :
  snd (execute fs o0 b) = RUNNING_MODAL →
  let n := length (batch_render_objects (scene b)) in
  let st1 := fst (execute fs o0 b) in
  (_is_running (self st1) = true →
   batch_render_progress (scene (bl st1)) = float_of_int 0) ∧
  (∀ actions o,
     let st := fst (modal TIMER o (fst (run actions st1))) in
     let k := _current_index (self st) in
     _is_running (self st) = true →
     batch_render_progress (scene (bl st))
       = (if k =? 0 then float_of_int 0 else percent k n) ∧
     k = completed_renders st + failed_renders st + skipped_entries b k) ∧
  (∀ actions, Forall (λ a, is_deliver a = true) actions →
     let st := fst (run actions st1) in
     _is_running (self st) = false →
     batch_render_progress (scene (bl st)) = float_of_int 100).
Proof.
  intros Hres n st1.
  destruct (execute_inv fs o0 b false Hres) as [HI Hzero]. fold st1 in HI, Hzero.
  split_and!; [done| |].
  - intros actions o st k Hrun.
    assert (Hweak1 : progress_weak st1) by (intros Hr; left; auto).
    pose proof (run_inv b false actions st1 ltac:(done) HI) as HI2.
    pose proof (run_progress_weak b actions st1 HI Hweak1) as Hweak2.
    pose proof (modal_inv b false TIMER o _ HI2) as HI3. fold st in HI3.
    pose proof (modal_progress_exact b false o _ HI2 Hweak2 Hrun) as Hex.
    fold st in Hex. split.
    + rewrite Hex. subst k n. by rewrite (frame_total _ _ (inv_frame _ _ _ HI3)).
    + by apply (running_index_accounting b false).
  - intros actions Hacts st Hstop.
    destruct (execute_inv fs o0 b true Hres) as [HIs _]. fold st1 in HIs.
    apply (run_inv b true actions) in HIs; [|done]. fold st in HIs.
    destruct HIs as [_ _ Hphase]. rewrite Hstop in Hphase.
    destruct Hphase as (_ & _ & _ & _ & Hall). by destruct (Hall eq_refl).
Qed.

End BatchProofs.

(** * Further properties *)

(** ** String helpers *)

Lemma append_cons (c : ascii) (s1 s2 : string) :
  String c s1 +:+ s2 = String c (s1 +:+ s2).
Proof. reflexivity. Qed.

Lemma append_nil (s : string) : EmptyString +:+ s = s.
Proof. reflexivity. Qed.

Lemma rev_app_append (s1 s2 acc : string) :
  String.rev_app (s1 +:+ s2) acc = String.rev_app s2 (String.rev_app s1 acc).
Proof.
  revert acc. induction s1 as [|c s1 IH]; intros acc; [done|].
  rewrite append_cons. simpl. apply IH.
Qed.

Lemma append_assoc (s1 s2 s3 : string) :
  (s1 +:+ s2) +:+ s3 = s1 +:+ s2 +:+ s3.
Proof.
  induction s1 as [|c s1 IH]; [done|]. by rewrite !append_cons, IH.
Qed.

Lemma append_empty_r (s : string) : s +:+ EmptyString = s.
Proof. induction s as [|c s IH]; [done|]. by rewrite append_cons, IH. Qed.

Lemma rev_app_acc (s acc : string) :
  String.rev_app s acc = String.rev_app s EmptyString +:+ acc.
Proof.
  revert acc. induction s as [|c s IH]; intros acc; simpl; [done|].
  rewrite (IH (String c acc)), (IH (String c EmptyString)).
  by rewrite append_assoc.
Qed.

Lemma rev_append (s1 s2 : string) :
  String.rev (s1 +:+ s2) = String.rev s2 +:+ String.rev s1.
Proof. unfold String.rev. by rewrite rev_app_append, rev_app_acc. Qed.

Lemma prefix_append (s1 s2 : string) : String.prefix s1 (s1 +:+ s2) = true.
Proof.
  induction s1 as [|c s1 IH]; [by destruct s2|].
  rewrite append_cons. simpl. by destruct (ascii_dec c c).
Qed.

Lemma endswith_append (s ext : string) : endswith (s +:+ ext) ext = true.
Proof. unfold endswith. rewrite rev_append. apply prefix_append. Qed.

Lemma before_last_dot_None (s : string) :
  before_last_dot s = None ↔ contains_dot s = false.
Proof.
  induction s as [|c s IH]; simpl; [done|].
  destruct (before_last_dot s) as [h|].
  - split; [done|]. destruct (Ascii.eqb c "."); [done|].
    intros Hs. by apply IH in Hs.
  - destruct (Ascii.eqb c "."); [done|]. split; [|done]. intros _. by apply IH.
Qed.

(** [rsplit('.', 1)[0]]: with no dot in [tail], what comes before the last
    dot of [stem.tail] is [stem]. *)
Lemma before_last_dot_split (stem tail : string) :
  contains_dot tail = false →
  before_last_dot (stem +:+ "." +:+ tail) = Some stem.
Proof.
  intros Htail. apply before_last_dot_None in Htail.
  induction stem as [|c stem IH].
  - rewrite append_nil, append_cons, append_nil. simpl. by rewrite Htail.
  - rewrite append_cons. simpl. by rewrite IH.
Qed.

(** ** set_file_extension *)

Lemma set_file_extension_ends (file_format filepath : string) :
  endswith (set_file_extension file_format filepath)
    (single_extension file_format) = true.
Proof.
  unfold set_file_extension.
  destruct (endswith filepath (single_extension file_format)) eqn:Hends;
    [done|].
  destruct (contains_dot filepath); apply endswith_append.
Qed.

(** X1: whatever the format and the old filepath, the filepath left by
    [set_file_extension] ends with the extension chosen for the format. *)
Theorem set_file_extension_endswith (file_format filepath : string) :
  endswith (set_file_extension file_format filepath)
    (single_extension file_format) = true.
Proof. apply set_file_extension_ends. Qed.

(** X2: [set_file_extension] is idempotent: a second call with the same
    format leaves the filepath of the first. *)
Theorem set_file_extension_idempotent (file_format filepath : string) :
  set_file_extension file_format (set_file_extension file_format filepath)
  = set_file_extension file_format filepath.
Proof.
  unfold set_file_extension at 1.
  by rewrite set_file_extension_ends.
Qed.

(** X3: when the filepath does not end with the extension and contains a
    dot, everything from its last dot on is replaced by the extension,
    wherever that dot stands: also a dot in a directory name cuts the path
    there. *)
Theorem set_file_extension_cuts_at_last_dot (file_format stem tail : string) :
  contains_dot tail = false →
  endswith (stem +:+ "." +:+ tail) (single_extension file_format) = false →
  set_file_extension file_format (stem +:+ "." +:+ tail)
  = stem +:+ single_extension file_format.
Proof.
  intros Htail Hends. unfold set_file_extension. rewrite Hends.
  assert (Hdot : contains_dot (stem +:+ "." +:+ tail) = true).
  { destruct (contains_dot (stem +:+ "." +:+ tail)) eqn:Hc; [done|].
    apply before_last_dot_None in Hc.
    by rewrite before_last_dot_split in Hc. }
  rewrite Hdot. unfold rsplit_dot_head.
  by rewrite before_last_dot_split.
Qed.

(** ** add_to_batch, remove_from_batch *)

Lemma already_listed_spec (selected_obj : string) (objects : list BatchItem) :
  existsb (λ item, bool_decide (item = Some selected_obj)) objects = true
  ↔ selected_obj ∈ listed_objects objects.
Proof.
  unfold listed_objects. rewrite existsb_exists, list_elem_of_omap.
  split.
  - intros (item & Hin & Heq). apply bool_decide_eq_true in Heq. subst.
    exists (Some selected_obj). split; [by apply list_elem_of_In|done].
  - intros (item & Hin & Heq). destruct item as [name|]; simplify_eq/=.
    exists (Some selected_obj). split; [by apply list_elem_of_In|].
    by apply bool_decide_eq_true.
Qed.

(** X4: [add_to_batch] never lists an object twice: a list whose entries
    point to pairwise different objects stays so, and after a call with an
    active object that object is in the list. *)
Theorem add_to_batch_no_duplicates (active_object : option string)
  (objects : list BatchItem) :
  NoDup (listed_objects objects) →
  NoDup (listed_objects (add_to_batch active_object objects).1.1) ∧
  ∀ selected_obj, active_object = Some selected_obj →
    selected_obj ∈ listed_objects (add_to_batch active_object objects).1.1.
Proof.
  intros Hnodup. destruct active_object as [sel|]; simpl; [|done].
  destruct (existsb (λ item, bool_decide (item = Some sel)) objects) eqn:Hex;
    simpl.
  - split; [done|]. intros ? [= <-]. by apply already_listed_spec.
  - assert (Hnot : sel ∉ listed_objects objects).
    { intros Hin. apply already_listed_spec in Hin. congruence. }
    unfold listed_objects in *. rewrite omap_app. simpl. split.
    + apply NoDup_app. split_and!; [done| |apply NoDup_singleton].
      intros x Hx Hx'. apply list_elem_of_singleton in Hx'. by subst.
    + intros ? [= <-]. apply elem_of_app. right. by apply list_elem_of_singleton.
Qed.

(** X5: adding the same object again is refused: the second call returns
    [CANCELLED] with a warning and leaves the list of the first call. *)
Theorem add_to_batch_twice (selected_obj : string) (objects : list BatchItem) :
  let once := (add_to_batch (Some selected_obj) objects).1.1 in
  add_to_batch (Some selected_obj) once
  = (once, CANCELLED,
     (WARNING, "'" +:+ selected_obj +:+ "' already in list!")).
Proof.
  intros once.
  assert (Hin : existsb (λ item, bool_decide (item = Some selected_obj)) once
                = true).
  { subst once. simpl.
    destruct (existsb (λ item, bool_decide (item = Some selected_obj)) objects)
      eqn:Hex; simpl; [done|].
    rewrite existsb_app. simpl. rewrite bool_decide_eq_true_2 by done.
    by rewrite orb_true_r. }
  simpl. by rewrite Hin.
Qed.

Lemma delete_last {A} (l : list A) (x : A) :
  delete (length l) (l ++ [x])%list = l.
Proof. induction l as [|y l IH]; simpl; [done|by f_equal]. Qed.

(** X6: adding an object that is not yet listed and then removing the last
    entry gives the list back. *)
Theorem add_then_remove_last (selected_obj : string)
  (objects : list BatchItem) :
  selected_obj ∉ listed_objects objects →
  let added := (add_to_batch (Some selected_obj) objects).1.1 in
  added = (objects ++ [Some selected_obj])%list ∧
  (remove_from_batch added (Z.of_nat (length objects))).1 = objects.
Proof.
  intros Hnot added.
  assert (Hex : existsb (λ item, bool_decide (item = Some selected_obj)) objects
                = false).
  { destruct (existsb (λ item, bool_decide (item = Some selected_obj)) objects)
      eqn:Hex; [|done].
    by apply already_listed_spec in Hex. }
  assert (Hadded : added = (objects ++ [Some selected_obj])%list).
  { subst added. simpl. by rewrite Hex. }
  split; [done|]. rewrite Hadded. unfold remove_from_batch.
  rewrite length_app. simpl.
  replace ((0 <=? Z.of_nat (length objects))%Z
           && (Z.of_nat (length objects) <? Z.of_nat (length objects + 1))%Z)
    with true
    by (symmetry; apply andb_true_iff; split;
        [apply Z.leb_le|apply Z.ltb_lt]; lia).
  simpl. unfold collection_remove. rewrite Nat2Z.id. apply delete_last.
Qed.

(** X7: removing the entry at an in-bounds index [i] deletes exactly that
    entry: those before it keep their place, those after it move up by one.
    The selection goes to the entry that stood before the removed one, or
    stays on the first place when the first entry is removed. *)
Theorem remove_from_batch_entries (objects : list BatchItem) (index : Z) :
  (0 ≤ index < Z.of_nat (length objects))%Z →
  let r := remove_from_batch objects index in
  let i := Z.to_nat index in
  (∀ j, j < i → r.1 !! j = objects !! j) ∧
  (∀ j, i ≤ j → r.1 !! j = objects !! S j) ∧
  (1 ≤ i → r.2 = (index - 1)%Z ∧ r.1 !! Z.to_nat r.2 = objects !! (i - 1)) ∧
  (i = 0 → 2 ≤ length objects → r.2 = 0%Z ∧ r.1 !! 0 = objects !! 1).
Proof.
  intros Hin r i.
  pose proof (remove_from_batch_length objects index Hin) as Hlen.
  subst r. unfold remove_from_batch in *.
  replace ((0 <=? index)%Z && (index <? Z.of_nat (length objects))%Z)
    with true in * by (symmetry; apply andb_true_iff; lia).
  simpl in *. unfold collection_remove in *. fold i in Hlen |- *.
  split_and!.
  - intros j Hj. by apply list_lookup_delete_lt.
  - intros j Hj. by apply list_lookup_delete_ge.
  - intros Hi. split; [lia|].
    replace (Z.to_nat (Z.max 0 (index - 1)
               `min` (Z.of_nat (length (delete i objects)) - 1)))
      with (i - 1) by lia.
    apply list_lookup_delete_lt. lia.
  - intros Hi Hlen2. split; [lia|].
    rewrite Hi. by apply (list_lookup_delete_ge objects 0 0).
Qed.

(** ** restore_all, hide_others *)

Lemma hide_except_lookup (selected_obj name : string)
  (objects : gmap string Visibility) :
  hide_except selected_obj objects !! name
  = (λ obj, if decide (name = selected_obj) then obj
            else {| hide_viewport := true; hide_render := true |})
    <$> objects !! name.
Proof.
  unfold hide_except. rewrite map_lookup_imap.
  destruct (objects !! name) as [obj|]; simpl; [|done].
  by destruct (decide (name = selected_obj)).
Qed.

Lemma dom_hide_except (selected_obj : string)
  (objects : gmap string Visibility) :
  dom (hide_except selected_obj objects) = dom objects.
Proof.
  apply set_eq. intros name. rewrite !elem_of_dom, hide_except_lookup.
  by rewrite fmap_is_Some.
Qed.

Lemma hide_except_spec (selected_obj : string)
  (objects : gmap string Visibility) :
  hide_except selected_obj objects !! selected_obj = objects !! selected_obj ∧
  ∀ other v, other ≠ selected_obj →
    hide_except selected_obj objects !! other = Some v →
    v = {| hide_viewport := true; hide_render := true |}.
Proof.
  split.
  - rewrite hide_except_lookup.
    destruct (objects !! selected_obj); simpl; [|done].
    by rewrite decide_True.
  - intros other v Hne. rewrite hide_except_lookup.
    destruct (objects !! other); simpl; [|done].
    rewrite decide_False by done. by intros [= <-].
Qed.

(** X8: [hide_others] hides every object but the active one and leaves the
    active object's own flags as they are: an active object that is hidden
    stays hidden.  No object is added or removed. *)
Theorem hide_others_spec (selected_obj : string)
  (objects : gmap string Visibility) :
  let r := hide_others (Some selected_obj) objects in
  r.1.2 = FINISHED ∧
  dom r.1.1 = dom objects ∧
  r.1.1 !! selected_obj = objects !! selected_obj ∧
  ∀ other v, other ≠ selected_obj → r.1.1 !! other = Some v →
    v = {| hide_viewport := true; hide_render := true |}.
Proof.
  simpl. destruct (hide_except_spec selected_obj objects) as [Hsel Hoth].
  split_and!; [done|apply dom_hide_except|done|done].
Qed.

(** X9: [restore_all] shows every object, whatever was hidden before and by
    whom: after it all objects have both flags [False], so following
    [hide_others] it gives the same as calling it directly, which need not
    be the visibility from before [hide_others]. *)
Theorem restore_all_shows_everything (selected_obj : string)
  (objects : gmap string Visibility) :
  let shown_all := (restore_all objects).1.1 in
  dom shown_all = dom objects ∧
  (∀ name v, shown_all !! name = Some v →
     v = {| hide_viewport := false; hide_render := false |}) ∧
  (restore_all (hide_others (Some selected_obj) objects).1.1).1.1 = shown_all.
Proof.
  simpl. split_and!.
  - by rewrite dom_fmap_L.
  - intros name v. rewrite lookup_fmap.
    destruct (objects !! name); simpl; [|done]. by intros [= <-].
  - apply map_eq. intros name.
    rewrite !lookup_fmap, hide_except_lookup.
    destruct (objects !! name); simpl; [|done].
    by destruct (decide (name = selected_obj)).
Qed.

(** ** RENDER_OT_single_object *)

Section Single.
Context `{Host}.

Lemma save_except_delete (selected_obj : string)
  (objects : gmap string Visibility) :
  save_except selected_obj objects = delete selected_obj objects.
Proof.
  unfold save_except.
  apply (map_fold_weak_ind
    (λ r (m : gmap string Visibility), r = delete selected_obj m)).
  - by rewrite delete_empty.
  - intros name [hv hr] m r Hname ->. simpl.
    destruct (decide (name = selected_obj)) as [->|Hne].
    + by rewrite delete_insert_eq, delete_id.
    + by rewrite delete_insert_ne.
Qed.

(** X10: when an object is selected, the render call of the single-object
    operator sees every other object with both flags [True], the selected
    object with the flags it had before (a selected object that is hidden is
    rendered hidden), the same set of objects, and a filepath that ends with
    the extension of the format. *)
Theorem single_object_render_sees (selected_obj : string) (raises : bool)
  (objects : gmap string Visibility) (sc : Scene) :
  ∃ seen filepath,
    so_render (single_object_execute (Some selected_obj) raises objects sc)
      = Some (seen, filepath) ∧
    dom seen = dom objects ∧
    seen !! selected_obj = objects !! selected_obj ∧
    (∀ other v, other ≠ selected_obj → seen !! other = Some v →
       v = {| hide_viewport := true; hide_render := true |}) ∧
    endswith filepath (single_extension (file_format sc)) = true.
Proof.
  exists (hide_except selected_obj objects),
         (set_file_extension (file_format sc) (render_filepath sc)).
  destruct (hide_except_spec selected_obj objects) as [Hsel Hoth].
  split_and!; try done.
  - simpl. by destruct raises.
  - apply dom_hide_except.
  - apply set_file_extension_ends.
Qed.

(** X11: with "Auto Restore" on and a render call that does not raise,
    [execute] registers [restore_settings]; run on the objects [execute]
    left, it gives back exactly the visibility from before the call. *)
Theorem single_object_restore_round_trip (selected_obj : string)
  (objects : gmap string Visibility) (sc : Scene) :
  single_render_restore sc = true →
  let out := single_object_execute (Some selected_obj) false objects sc in
  so_result out = Some FINISHED ∧
  ∃ visibility_states,
    so_timer out = Some visibility_states ∧
    restore_settings visibility_states (so_objects out) = objects.
Proof.
  intros Hrestore out. split; [done|].
  exists (save_except selected_obj objects). split.
  { subst out. simpl. by rewrite Hrestore. }
  subst out. simpl. unfold restore_settings.
  rewrite save_except_delete. apply map_eq. intros name.
  rewrite restore_visibility_lookup, hide_except_lookup.
  destruct (decide (name = selected_obj)) as [->|Hne].
  - rewrite lookup_delete_eq.
    by destruct (objects !! selected_obj).
  - rewrite lookup_delete_ne by done.
    by destruct (objects !! name) as [[hv hr]|].
Qed.

(** X12: [restore_settings] runs two seconds later, on whatever objects
    exist then.  An object deleted in the meantime is skipped and not
    brought back; all others get their saved flags. *)
Theorem single_object_restore_after_delete (selected_obj deleted : string)
  (objects : gmap string Visibility) (sc : Scene) :
  single_render_restore sc = true →
  let out := single_object_execute (Some selected_obj) false objects sc in
  ∃ visibility_states,
    so_timer out = Some visibility_states ∧
    restore_settings visibility_states (delete deleted (so_objects out))
    = delete deleted objects.
Proof.
  intros Hrestore out.
  exists (save_except selected_obj objects). split.
  { subst out. simpl. by rewrite Hrestore. }
  subst out. simpl. unfold restore_settings.
  rewrite save_except_delete. apply map_eq. intros name.
  rewrite restore_visibility_lookup.
  destruct (decide (name = deleted)) as [->|Hdel].
  { by rewrite !lookup_delete_eq. }
  rewrite !(lookup_delete_ne _ deleted) by done.
  rewrite hide_except_lookup.
  destruct (decide (name = selected_obj)) as [->|Hne].
  - rewrite lookup_delete_eq.
    by destruct (objects !! selected_obj).
  - rewrite lookup_delete_ne by done.
    by destruct (objects !! name) as [[hv hr]|].
Qed.

End Single.

(** ** More on the batch operator *)

Section BatchMore.
Context `{Host}.

(** Without a cancel request [modal] does not return [CANCELLED]. *)
Lemma modal_not_cancelled (event : Event) (o : Oracle) (st : State) :
  batch_render_cancelled (scene (bl st)) = false →
  snd (modal event o st) ≠ CANCELLED.
Proof.
  intros Hflag. destruct event; [|done]. unfold modal. rewrite Hflag.
  destruct (negb (default false (job_running o)) && _is_running (self st));
    [|done].
  by match goal with |- context [if ?c then _ else _] => destruct c end.
Qed.

(** [modal] returns [FINISHED] only from the render of the last list
    entry. *)
Lemma modal_finished_last (b0 : Blender) (event : Event) (o : Oracle)
  (st : State) :
  Inv b0 true st →
  snd (modal event o st) = FINISHED →
  valid_entry b0 (length (batch_render_objects (scene b0)) - 1) = true.
Proof.
  intros HI. destruct event; [|done]. unfold modal.
  rewrite (inv_flag _ _ _ HI eq_refl).
  destruct (negb (default false (job_running o)) && _is_running (self st))
    eqn:Hgo; [|done].
  apply andb_true_iff in Hgo as [_ Hrun].
  destruct HI as [HF _ Hphase]. rewrite Hrun in Hphase.
  destruct Hphase as (_ & Hlt & _ & calls & rc & Hlog & Hidx & _).
  match goal with |- context [if ?c then _ else _] => destruct c eqn:Hmore end;
    [done|].
  intros _. apply Nat.ltb_ge in Hmore. simpl in Hmore.
  rewrite (frame_items _ _ HF) in Hmore.
  pose proof (frame_calls _ _ HF) as Hall. rewrite Hlog in Hall.
  apply Forall_app in Hall as [_ Hrc]. inversion Hrc as [|? ? Hok _]; subst.
  pose proof (call_valid _ _ Hok) as Hvalid. rewrite Hidx in Hvalid.
  replace (length (batch_render_objects (scene b0)) - 1)
    with (_current_index (self st)) by lia.
  done.
Qed.

Lemma run_stays_modal (b0 : Blender) (actions : list Action) (st : State) :
  Inv b0 true st →
  valid_entry b0 (length (batch_render_objects (scene b0)) - 1) = false →
  Forall (λ a, is_deliver a = true) actions →
  snd (run actions st) = None.
Proof.
  intros HI Hlast. revert st HI.
  induction actions as [|a actions IH]; intros st HI Hacts; [done|].
  inversion Hacts as [|? ? Ha Hrest]; subst.
  destruct a as [event o|]; [|done]. simpl.
  pose proof (modal_inv b0 true event o st HI) as HI'.
  pose proof (modal_finished_last b0 event o st HI) as Hfin.
  pose proof (modal_not_cancelled event o st (inv_flag _ _ _ HI eq_refl))
    as Hcan.
  destruct (modal event o st) as [st' r]. simpl in *.
  destruct r; auto; [done|]. rewrite Hfin in Hlast; done.
Qed.

(** X13: when the last entry of the list is invalid, an uncancelled batch
    never ends its modal operator: no event makes [modal] return [FINISHED]
    or [CANCELLED].  The batch itself still comes to its end: after as many
    idle timer events as the list has entries it has stopped, with progress
    100. *)
Theorem last_entry_invalid_stays_modal (fs : FileSystem) (o : Oracle)
  (b : Blender) (actions : list Action) :
  snd (execute fs o b) = RUNNING_MODAL →
  valid_entry b (length (batch_render_objects (scene b)) - 1) = false →
  Forall (λ a, is_deliver a = true) actions →
  snd (run actions (fst (execute fs o b))) = None ∧
  (Forall (λ a, is_idle_tick a = true) actions →
   length (batch_render_objects (scene b)) ≤ length actions →
   let st := fst (run actions (fst (execute fs o b))) in
   _is_running (self st) = false ∧
   batch_render_progress (scene (bl st)) = float_of_int 100).
Proof.
  intros Hres Hlast Hacts.
  destruct (execute_inv fs o b true Hres) as [HI _].
  split; [by apply (run_stays_modal b)|].
  intros Hidle Hlen st.
  assert (Hstop : _is_running (self st) = false).
  { apply (idle_ticks_complete b); try done. intros _. lia. }
  split; [done|].
  apply (run_inv b true actions) in HI; [|done]. fold st in HI.
  destruct HI as [_ _ Hphase]. rewrite Hstop in Hphase.
  destruct Hphase as (_ & _ & _ & _ & Hall). by destruct (Hall eq_refl).
Qed.

(** X14: when no entry of the list is valid, [execute] asks for no render
    and finishes the batch on the spot (objects and filepath untouched,
    progress 100), but still registers its timer and returns
    [RUNNING_MODAL]. *)
Theorem execute_all_invalid (fs : FileSystem) (o : Oracle) (b : Blender) :
  snd (execute fs o b) = RUNNING_MODAL →
  (∀ i, valid_entry b i = false) →
  let st := fst (execute fs o b) in
  render_calls st = [] ∧
  _is_running (self st) = false ∧
  _timer (self st) = true ∧
  data_objects (bl st) = data_objects b ∧
  render_filepath (scene (bl st)) = render_filepath (scene b) ∧
  batch_render_progress (scene (bl st)) = float_of_int 100.
Proof.
  intros Hres Hinvalid st.
  destruct (execute_inv fs o b true Hres) as [HI _]. fold st in HI.
  destruct HI as [HF _ Hphase].
  assert (Hnone : ∀ k, valid_indices b k = []).
  { intros k. unfold valid_indices. induction (seq 0 k) as [|i l IH]; [done|].
    rewrite filter_cons_False; [done|]. by rewrite Hinvalid. }
  assert (Htimer : _timer (self st) = true).
  { destruct (execute_started fs o b Hres) as (_ & st1 & Heq & _).
    subst st. by rewrite Heq. }
  destruct (_is_running (self st)).
  - destruct Hphase as (_ & _ & Hcalls & calls & rc & Hlog & _).
    unfold rendered_indices in Hcalls. rewrite Hnone, Hlog, fmap_app in Hcalls.
    by destruct (rc_index <$> calls).
  - destruct Hphase as (Hobj & Hfp & _ & _ & Hall).
    destruct (Hall eq_refl) as (Hcalls & Hprog).
    unfold rendered_indices in Hcalls. rewrite Hnone in Hcalls.
    split_and!; try done. by destruct (render_calls st).
Qed.

(** X17: a timer event that finds the render still running (and no cancel
    request) is passed through, and the state after it is the state before
    it with at most the ETA text and the progress value rewritten: objects,
    filepath, batch list, status and current-object texts, cancel flag, the
    operator's own attributes, render calls and reports are all as they
    were. *)
Theorem modal_while_rendering (o : Oracle) (st : State) :
  job_running o = Some true →
  batch_render_cancelled (scene (bl st)) = false →
  let st' := fst (modal TIMER o st) in
  snd (modal TIMER o st) = PASS_THROUGH ∧
  st' = on_scene (scene_set_progress (batch_render_progress (scene (bl st'))))
          (on_scene (scene_set_eta (batch_render_eta (scene (bl st')))) st) ∧
  data_objects (bl st') = data_objects (bl st) ∧
  render_filepath (scene (bl st')) = render_filepath (scene (bl st)) ∧
  batch_render_objects (scene (bl st')) = batch_render_objects (scene (bl st)) ∧
  batch_render_status (scene (bl st')) = batch_render_status (scene (bl st)) ∧
  batch_render_current_object (scene (bl st'))
    = batch_render_current_object (scene (bl st)) ∧
  batch_render_cancelled (scene (bl st')) = false ∧
  self st' = self st ∧
  render_calls st' = render_calls st ∧
  reports st' = reports st.
Proof.
  intros Hpoll Hflag. unfold modal. rewrite Hflag, Hpoll. cbn [default negb andb fst snd].
  assert (Hsame : st = on_scene (scene_set_progress
                                   (batch_render_progress (scene (bl st))))
                         (on_scene (scene_set_eta
                                      (batch_render_eta (scene (bl st)))) st)).
  { destruct st as [[objects sc] slf calls reps]. by destruct sc. }
  destruct (_is_running (self st)).
  - unfold update_progress_info.
    destruct ((0 <? _total_objects (self st)) && (0 <? _current_index (self st)));
      simpl; by split_and!.
  - by split_and!.
Qed.

(** X18: a cancel request left over from before the start does not reach
    the new batch: [execute] clears the flag, so the first timer event does
    not cancel. *)
Theorem execute_clears_cancel_request (fs : FileSystem) (o o' : Oracle)
  (b : Blender) :
  snd (execute fs o b) = RUNNING_MODAL →
  batch_render_cancelled (scene (bl (fst (execute fs o b)))) = false ∧
  snd (modal TIMER o' (fst (execute fs o b))) ≠ CANCELLED.
Proof.
  intros Hres. destruct (execute_inv fs o b true Hres) as [HI _].
  pose proof (inv_flag _ _ _ HI eq_refl) as Hflag.
  split; [done|]. by apply modal_not_cancelled.
Qed.

End BatchMore.

(** ** The completion message *)

Section BatchStatus.
Context `{Host}.

Lemma finish_status (o : Oracle) (st : State) :
  batch_render_status (scene (bl (finish_batch_render o false st)))
  = completed_status (_total_objects (self st)).
Proof. unfold finish_batch_render. by destruct (_timer (self st)). Qed.

Lemma render_next_object_rec_status (o : Oracle) (fuel : nat) (st : State) :
  _is_running (self st) = true →
  _is_running (self (render_next_object_rec fuel o st)) = false →
  batch_render_status (scene (bl (render_next_object_rec fuel o st)))
  = completed_status (_total_objects (self st)).
Proof.
  revert st. induction fuel as [|fuel IH]; intros st Hrun; simpl.
  { destruct (_ <=? _); congruence. }
  destruct (_ <=? _); [congruence|].
  assert (Hadv : ∀ st1,
    _is_running (self st1) = true →
    _is_running (self (advance (render_next_object_rec fuel o) o st1)) = false →
    batch_render_status
      (scene (bl (advance (render_next_object_rec fuel o) o st1)))
    = completed_status (_total_objects (self st1))).
  { intros st1 Hrun1. unfold advance.
    match goal with |- context [if ?c then _ else _] => destruct c end.
    - intros Hstop. by rewrite IH.
    - intros _. by rewrite finish_status. }
  destruct (validate _ _) as [name|]; [|by apply Hadv].
  destruct (render_raises o (_current_index (self st))).
  - intros Hstop. by rewrite Hadv.
  - simpl. congruence.
Qed.

Lemma modal_status_completed (b0 : Blender) (event : Event) (o : Oracle)
  (st : State) :
  Inv b0 true st → status_completed b0 st →
  status_completed b0 (fst (modal event o st)).
Proof.
  intros HI HQ. destruct event; [|done]. unfold modal.
  rewrite (inv_flag _ _ _ HI eq_refl).
  pose proof (frame_total _ _ (inv_frame _ _ _ HI)) as Htotal.
  assert (Hinfo : ∀ s, status_completed b0 s →
            status_completed b0
              (if _is_running (self s) then update_progress_info o s else s)).
  { intros s Hs. destruct (_is_running (self s)) eqn:Hr; [|done].
    intros Hstop. destruct (update_progress_info_self o s) as (Hself & _).
    rewrite Hself in Hstop. congruence. }
  destruct (negb (default false (job_running o)) && _is_running (self st))
    eqn:Hgo; cbn [fst]; [|by apply Hinfo].
  apply andb_true_iff in Hgo as [_ Hrun].
  match goal with |- context [if ?c then _ else _] => destruct c end;
    cbn [fst].
  - apply Hinfo. intros Hstop. unfold render_next_object in *.
    rewrite render_next_object_rec_status; [|done|done]. simpl.
    by rewrite Htotal.
  - intros _. rewrite finish_status. simpl. by rewrite Htotal.
Qed.

Lemma execute_status_completed (fs : FileSystem) (o : Oracle) (b0 : Blender) :
  snd (execute fs o b0) = RUNNING_MODAL →
  status_completed b0 (fst (execute fs o b0)).
Proof.
  intros Hres.
  destruct (execute_started fs o b0 Hres) as (_ & st1 & -> & HM & _).
  intros Hstop. simpl in *. unfold render_next_object in *.
  rewrite render_next_object_rec_status; [|apply HM|done].
  by rewrite (frame_total _ _ (mid_frame _ _ HM)).
Qed.

Lemma run_status_completed (b0 : Blender) (actions : list Action)
  (st : State) :
  Forall (λ a, is_deliver a = true) actions →
  Inv b0 true st → status_completed b0 st →
  status_completed b0 (fst (run actions st)).
Proof.
  revert st. induction actions as [|a actions IH]; intros st Hacts HI HQ;
    [done|].
  inversion Hacts as [|? ? Ha Hrest]; subst.
  destruct a as [event o|]; [|done]. simpl.
  pose proof (modal_inv b0 true event o st HI) as HI'.
  pose proof (modal_status_completed b0 event o st HI HQ) as HQ'.
  destruct (modal event o st) as [st' r]. simpl in *.
  destruct r; auto.
Qed.

(** X15: when an uncancelled batch has stopped, the status reads
    "Completed! n objects rendered" with [n] the length of the batch list,
    whatever the number of renders that were asked for: that number is the
    number of valid entries, which may be smaller. *)
Theorem completion_status_counts_list (fs : FileSystem) (o : Oracle)
  (b : Blender) (actions : list Action) :
  snd (execute fs o b) = RUNNING_MODAL →
  Forall (λ a, is_deliver a = true) actions →
  let n := length (batch_render_objects (scene b)) in
  let st := fst (run actions (fst (execute fs o b))) in
  _is_running (self st) = false →
  batch_render_status (scene (bl st)) = completed_status n ∧
  length (render_calls st) = length (valid_indices b n) ∧
  length (render_calls st) ≤ n.
Proof.
  intros Hres Hacts n st Hstop.
  destruct (execute_inv fs o b true Hres) as [HI _].
  pose proof (execute_status_completed fs o b Hres) as HQ.
  pose proof (run_status_completed b actions _ Hacts HI HQ) as HQ'.
  apply (run_inv b true actions) in HI; [|done]. fold st in HI, HQ'.
  destruct HI as [_ _ Hphase]. rewrite Hstop in Hphase.
  destruct Hphase as (_ & _ & _ & _ & Hall).
  destruct (Hall eq_refl) as (Hcalls & _).
  apply (f_equal length) in Hcalls. unfold rendered_indices in Hcalls.
  rewrite length_fmap in Hcalls. fold n in Hcalls.
  split_and!; [by apply HQ'|done|].
  rewrite Hcalls. unfold valid_indices.
  etrans; [apply length_filter|]. by rewrite length_seq.
Qed.

End BatchStatus.

(** ** File names of a batch *)

Lemma digit_value_pretty_N_char (m : N) :
  (m < 10)%N → digit_value (pretty_N_char m) = m.
Proof.
  intros Hm.
  assert (m = 0 ∨ m = 1 ∨ m = 2 ∨ m = 3 ∨ m = 4 ∨ m = 5 ∨ m = 6 ∨ m = 7
          ∨ m = 8 ∨ m = 9)%N as Hcases by lia.
  repeat (destruct Hcases as [->|Hcases]; [reflexivity|]). by subst.
Qed.

Lemma underscore_free_pretty_N_char (m : N) :
  Ascii.eqb (pretty_N_char m) "_" = false.
Proof. unfold pretty_N_char. by repeat case_match. Qed.

(** Reading back the digits that [pretty] writes in front of [s]. *)
Lemma dec_value_pretty_N_go (x : N) (s : string) :
  dec_value 0 (pretty_N_go x s) = dec_value x s.
Proof.
  revert s. induction (N.lt_wf_0 x) as [x _ IH]; intros s.
  assert (x = 0 ∨ 0 < x)%N as [->|Hpos] by lia.
  - by rewrite pretty_N_go_0.
  - rewrite pretty_N_go_step by done.
    rewrite IH by (by apply N.div_lt). simpl.
    rewrite digit_value_pretty_N_char by (by apply N.mod_lt).
    f_equal. rewrite (N.div_mod x 10) at 3 by done. lia.
Qed.

Lemma underscore_free_pretty_N_go (x : N) (s : string) :
  underscore_free (pretty_N_go x s) = underscore_free s.
Proof.
  revert s. induction (N.lt_wf_0 x) as [x _ IH]; intros s.
  assert (x = 0 ∨ 0 < x)%N as [->|Hpos] by lia.
  - by rewrite pretty_N_go_0.
  - rewrite pretty_N_go_step by done.
    rewrite IH by (by apply N.div_lt). simpl.
    by rewrite underscore_free_pretty_N_char.
Qed.

Lemma dec_value_pretty (x : N) : dec_value 0 (pretty x) = x.
Proof.
  unfold pretty, pretty_N. case_decide as Hx; [by subst|].
  by rewrite dec_value_pretty_N_go.
Qed.

Lemma underscore_free_pretty (x : N) : underscore_free (pretty x) = true.
Proof.
  unfold pretty, pretty_N. case_decide; [done|].
  by rewrite underscore_free_pretty_N_go.
Qed.

Lemma dec_value_zeros (k : nat) (s : string) :
  dec_value 0 (zeros k +:+ s) = dec_value 0 s.
Proof. induction k as [|k IH]; [done|]. exact IH. Qed.

Lemma underscore_free_zeros (k : nat) (s : string) :
  underscore_free (zeros k +:+ s) = underscore_free s.
Proof. induction k as [|k IH]; [done|]. exact IH. Qed.

(** The number can be read back from the zero-filled field. *)
Lemma dec_value_format_0d (width : nat) (z : Z) :
  (0 ≤ z)%Z → dec_value 0 (format_0d width z) = Z.to_N z.
Proof.
  intros Hz. unfold format_0d.
  replace (z <? 0)%Z with false by (symmetry; apply Z.ltb_ge; lia).
  by rewrite dec_value_zeros, dec_value_pretty.
Qed.

Lemma underscore_free_format_0d (width : nat) (z : Z) :
  (0 ≤ z)%Z → underscore_free (format_0d width z) = true.
Proof.
  intros Hz. unfold format_0d.
  replace (z <? 0)%Z with false by (symmetry; apply Z.ltb_ge; lia).
  by rewrite underscore_free_zeros, underscore_free_pretty.
Qed.

Lemma underscore_free_after_underscore (s1 s2 : string) :
  underscore_free (s1 +:+ "_" +:+ s2) = false.
Proof.
  induction s1 as [|c s1 IH]; [done|].
  rewrite append_cons. simpl. rewrite IH. apply andb_false_r.
Qed.

(** A string is cut at its last underscore in one way only. *)
Lemma split_at_last_underscore (c1 c2 d1 d2 : string) :
  underscore_free d1 = true → underscore_free d2 = true →
  c1 +:+ "_" +:+ d1 = c2 +:+ "_" +:+ d2 → c1 = c2 ∧ d1 = d2.
Proof.
  intros Hd1 Hd2. revert c2.
  induction c1 as [|a c1 IH]; intros [|a' c2] Heq.
  - change (String "_" d1 = String "_" d2) in Heq. by simplify_eq.
  - change (String "_" d1 = String a' (c2 +:+ "_" +:+ d2)) in Heq.
    injection Heq as <- ->.
    by rewrite underscore_free_after_underscore in Hd1.
  - change (String a (c1 +:+ "_" +:+ d1) = String "_" d2) in Heq.
    injection Heq as -> <-.
    by rewrite underscore_free_after_underscore in Hd2.
  - change (String a (c1 +:+ "_" +:+ d1) = String a' (c2 +:+ "_" +:+ d2))
      in Heq.
    injection Heq as -> Heq.
    by destruct (IH _ Heq) as [-> ->].
Qed.

Lemma rev_involutive (s : string) : String.rev (String.rev s) = s.
Proof.
  induction s as [|c s IH]; [done|].
  change (String c s) with (String c EmptyString +:+ s) at 1.
  by rewrite !rev_append, IH.
Qed.

Lemma append_inv_tail (s1 s2 ext : string) :
  s1 +:+ ext = s2 +:+ ext → s1 = s2.
Proof.
  intros Heq. apply (f_equal String.rev) in Heq.
  rewrite !rev_append in Heq. apply (inj _) in Heq.
  by rewrite <- (rev_involutive s1), Heq, rev_involutive.
Qed.

Section Filenames.
Context `{Host}.

(** X16: within one batch two different list indices never get the same
    file name, whatever the two object names and the prefix are: the
    three-digit number that ends the name can be read back from it. *)
Theorem batch_filenames_distinct (prefix name1 name2 extension : string)
  (i j : nat) :
  i ≠ j →
  (batch_filename prefix name1 i +:+ extension)
  ≠ (batch_filename prefix name2 j +:+ extension).
Proof.
  intros Hne Heq. apply append_inv_tail in Heq.
  assert (Hnum : format_0d 3 (Z.of_nat i + 1) = format_0d 3 (Z.of_nat j + 1)).
  { unfold batch_filename in Heq.
    destruct (String.eqb (strip prefix) EmptyString).
    - eapply split_at_last_underscore; [..|exact Heq];
        apply underscore_free_format_0d; lia.
    - apply (inj _) in Heq. apply (inj (String.app "_")) in Heq.
      eapply split_at_last_underscore; [..|exact Heq];
        apply underscore_free_format_0d; lia. }
  apply (f_equal (dec_value 0)) in Hnum.
  rewrite !dec_value_format_0d in Hnum by lia. lia.
Qed.

End Filenames.

(** ** Starting, finishing, and the entry in progress *)

Section BatchEdges.
Context `{Host}.

(** X19: [execute] starts the batch exactly when the list is not empty,
    the output path is set, the output directory exists or can be created,
    and it is writable; otherwise it returns [CANCELLED].  The free disk
    space plays no part: too little of it only gives a warning. *)
Theorem execute_start_conditions (fs : FileSystem) (o : Oracle) (b : Blender) :
  let output_path := abspath (batch_render_path (scene b)) in
  (snd (execute fs o b) = RUNNING_MODAL ↔
   batch_render_objects (scene b) ≠ [] ∧
   batch_render_path (scene b) ≠ EmptyString ∧
   (fs_exists fs output_path = true ∨ fs_makedirs fs output_path = MkOk) ∧
   fs_access_w fs output_path = true) ∧
  (snd (execute fs o b) = RUNNING_MODAL ∨ snd (execute fs o b) = CANCELLED).
Proof.
  intros output_path. unfold execute. fold output_path.
  destruct (batch_render_objects (scene b)) as [|item items] eqn:Hitems.
  { simpl. split; [|by right]. split; [done|]. by intros [? _]. }
  cbn [length Nat.eqb].
  destruct (String.eqb (batch_render_path (scene b)) EmptyString) eqn:Hpath.
  { apply String.eqb_eq in Hpath. simpl. split; [|by right].
    split; [done|]. by intros (_ & ? & _). }
  apply String.eqb_neq in Hpath.
  destruct (fs_exists fs output_path) eqn:Hex.
  - destruct (fs_access_w fs output_path) eqn:Hw; simpl.
    + split; [|by left]. split; [|done]. intros _. split_and!; auto.
    + split; [|by right]. split; [done|]. by intros (_ & _ & _ & ?).
  - destruct (fs_makedirs fs output_path) eqn:Hmk.
    + destruct (fs_access_w fs output_path) eqn:Hw; simpl.
      * split; [|by left]. split; [|done]. intros _. split_and!; auto.
      * split; [|by right]. split; [done|]. by intros (_ & _ & _ & ?).
    + simpl. split; [|by right]. split; [done|].
      by intros (_ & _ & [?|?] & _).
    + simpl. split; [|by right]. split; [done|].
      by intros (_ & _ & [?|?] & _).
Qed.

(** X21: [finish_batch_render] gives every object that still exists the
    flags recorded for it, leaves an object that was not recorded as it is,
    and never brings back an object that has been deleted. *)
Theorem finish_restores_existing_objects (o : Oracle) (cancelled : bool)
  (st : State) (name : string) :
  data_objects (bl (finish_batch_render o cancelled st)) !! name
  = match data_objects (bl st) !! name with
    | Some obj => Some (default obj (_visibility_states (self st) !! name))
    | None => None
    end.
Proof.
  destruct (finish_restored o cancelled st) as [-> _].
  rewrite restore_visibility_lookup.
  destruct (data_objects (bl st) !! name); [|done].
  by destruct (_visibility_states (self st) !! name) as [[hv hr]|].
Qed.

(** While running, the scene shows the entry in progress: filepath and
    current-object text are those of the last render call. *)
Lemma render_next_object_rec_current (o : Oracle) (fuel : nat) (st : State) :
  _current_index (self st) < length (batch_render_objects (scene (bl st))) →
  length (batch_render_objects (scene (bl st))) - _current_index (self st)
    ≤ fuel →
  shows_current (render_next_object_rec fuel o st).
Proof.
  revert st. induction fuel as [|fuel IH]; intros st; [simpl; lia|].
  intros Hlt Hfuel. simpl.
  replace (length (batch_render_objects (scene (bl st)))
             <=? _current_index (self st)) with false
    by (symmetry; apply Nat.leb_gt; lia).
  assert (Hadv : ∀ st1,
    batch_render_objects (scene (bl st1)) = batch_render_objects (scene (bl st)) →
    _current_index (self st1) = _current_index (self st) →
    shows_current (advance (render_next_object_rec fuel o) o st1)).
  { intros st1 Hitems Hidx. unfold advance.
    match goal with |- context [if ?c then _ else _] => destruct c eqn:Hmore end.
    - apply Nat.ltb_lt in Hmore. simpl in Hmore.
      apply IH; simpl; rewrite ?Hitems, ?Hidx in *; lia.
    - intros Hrun. by rewrite (proj1 (finish_self o false _)) in Hrun. }
  destruct (validate _ _) as [name|]; [|by apply Hadv].
  destruct (render_raises o (_current_index (self st))).
  - by apply Hadv.
  - intros _. simpl. by eexists _, _.
Qed.

Lemma modal_shows_current (event : Event) (o : Oracle) (st : State) :
  shows_current st → shows_current (fst (modal event o st)).
Proof.
  intros Hcur. destruct event; [|done]. unfold modal.
  destruct (batch_render_cancelled (scene (bl st))).
  { cbn [fst]. intros Hrun. by rewrite (proj1 (finish_self o true _)) in Hrun. }
  assert (Hinfo : ∀ s, shows_current s →
            shows_current
              (if _is_running (self s) then update_progress_info o s else s)).
  { intros s Hs. destruct (_is_running (self s)) eqn:Hr; [|done].
    intros _. destruct (Hs Hr) as (calls & rc & Hlog & Hfp & Hobj).
    exists calls, rc. unfold update_progress_info.
    by destruct ((0 <? _total_objects (self s)) && (0 <? _current_index (self s))). }
  destruct (negb (default false (job_running o)) && _is_running (self st));
    cbn [fst]; [|by apply Hinfo].
  match goal with |- context [if ?c then _ else _] => destruct c eqn:Hmore end;
    cbn [fst].
  - apply Hinfo. apply Nat.ltb_lt in Hmore. unfold render_next_object.
    by apply render_next_object_rec_current.
  - intros Hrun. by rewrite (proj1 (finish_self o false _)) in Hrun.
Qed.

Lemma run_shows_current (actions : list Action) (st : State) :
  shows_current st → shows_current (fst (run actions st)).
Proof.
  revert st. induction actions as [|a actions IH]; intros st Hcur; [done|].
  destruct a as [event o|]; simpl.
  - pose proof (modal_shows_current event o st Hcur) as Hcur'.
    destruct (modal event o st) as [st' r]. simpl in *.
    destruct r; auto.
  - apply IH. intros Hrun. destruct (Hcur Hrun) as (calls & rc & ? & ? & ?).
    by exists calls, rc.
Qed.

(** X20: while the batch runs, the scene shows the entry in progress: the
    entry at the current index points to an object, the scene's render
    filepath is the file of that entry and the current-object text is the
    object's name. *)
Theorem running_batch_shows_current_entry (fs : FileSystem) (o : Oracle)
  (b : Blender) (actions : list Action) :
  snd (execute fs o b) = RUNNING_MODAL →
  let st := fst (run actions (fst (execute fs o b))) in
  _is_running (self st) = true →
  ∃ name,
    batch_render_objects (scene b) !! _current_index (self st)
      = Some (Some name) ∧
    batch_render_current_object (scene (bl st)) = name ∧
    render_filepath (scene (bl st))
      = expected_filepath b name (_current_index (self st)).
Proof.
  intros Hres st Hrun.
  destruct (execute_inv fs o b false Hres) as [HI _].
  assert (Hcur1 : shows_current (fst (execute fs o b))).
  { destruct (execute_started fs o b Hres)
      as (_ & st1 & -> & HM & Hidx & _).
    pose proof (mid_frame _ _ HM) as HF.
    intros Hr. simpl in Hr.
    destruct (render_next_object_rec_current o
                (length (batch_render_objects (scene (bl st1)))
                   - _current_index (self st1)) st1) as (calls & rc & ? & ? & ?);
      [|done|done|by exists calls, rc].
    rewrite Hidx, (frame_items _ _ HF).
    destruct (execute_started fs o b Hres) as (Hne & _).
    destruct (batch_render_objects (scene b)); simpl; [done|lia]. }
  pose proof (run_shows_current actions _ Hcur1 Hrun)
    as (calls & rc & Hlog & Hfp & Hobj). fold st in Hlog, Hfp, Hobj.
  apply (run_inv b false actions) in HI; [|done]. fold st in HI.
  destruct HI as [HF _ Hphase]. rewrite Hrun in Hphase.
  destruct Hphase as (_ & _ & _ & calls' & rc' & Hlog' & Hidx & _).
  rewrite Hlog in Hlog'. apply app_inj_tail in Hlog' as [_ <-].
  pose proof (frame_calls _ _ HF) as Hall. rewrite Hlog in Hall.
  apply Forall_app in Hall as [_ Hrc]. inversion Hrc as [|? ? Hok _]; subst.
  destruct Hok as [Hentry _ Hpath _ _].
  exists (rc_object rc). rewrite <- Hidx, <- Hobj, <- Hfp. by split_and!.
Qed.

End BatchEdges.

(** ** The statements at concrete runs *)

Import Demo.

(** A batch of two entries that runs to completion: filepath and objects are
    back where they were. *)
Lemma batch_termination_restores_witness :
  let b := demo_blender two_items EmptyString in
  let actions := [tick 10 (Some false); tick 20 (Some false)] in
  let st := run actions (fst (execute demo_fs (at_time 0 None) b)) in
  snd (execute demo_fs (at_time 0 None) b) = RUNNING_MODAL ∧
  snd st = Some FINISHED ∧
  render_filepath (scene (bl (fst st))) = "/tmp/frame" ∧
  data_objects (bl (fst st)) = demo_objects.
Proof.
  intros b actions st.
  assert (Hres : snd (execute demo_fs (at_time 0 None) b) = RUNNING_MODAL)
    by (vm_compute; reflexivity).
  assert (Hend : snd st = Some FINISHED) by (vm_compute; reflexivity).
  destruct (batch_termination_restores demo_fs (at_time 0 None) b actions Hres)
    as (Hfp & Hobj & _).
  { left. fold st. rewrite Hend. by eexists. }
  split_and!; [exact Hres|exact Hend|exact Hfp|exact Hobj].
Defined.

(** A list with an invalid middle entry: renders for entries 0 and 2, and
    three more idle timer events change nothing. *)
Lemma batch_traverses_in_order_witness :
  let b := demo_blender mixed_items EmptyString in
  let actions := [tick 10 (Some true); tick 20 (Some false)] in
  let st := fst (run actions (fst (execute demo_fs (at_time 0 None) b))) in
  snd (execute demo_fs (at_time 0 None) b) = RUNNING_MODAL ∧
  Forall (λ a, is_deliver a = true) actions ∧
  rendered_indices st = [0; 2] ∧
  rendered_indices (fst (run [tick 30 None; tick 40 None; tick 50 None] st))
    = valid_indices b 3.
Proof.
  intros b actions st.
  assert (Hres : snd (execute demo_fs (at_time 0 None) b) = RUNNING_MODAL)
    by (vm_compute; reflexivity).
  assert (Hacts : Forall (λ a, is_deliver a = true) actions)
    by (repeat constructor).
  destruct (batch_traverses_in_order demo_fs (at_time 0 None) b actions
              Hres Hacts) as (_ & _ & _ & Hlive).
  split_and!; [exact Hres|exact Hacts|vm_compute; reflexivity|].
  apply Hlive; [repeat constructor|simpl; lia].
Defined.

(** C3 as stated fails when the poll itself fails: [is_job_running] raises,
    nothing reported that no job is running, and [modal] still requests the
    render of the next entry. *)
Lemma render_requested_without_poll_report :
  let st := started two_items EmptyString in
  let o := at_time 10 None in
  job_running o ≠ Some false ∧
  rendered_indices st = [0] ∧
  rendered_indices (fst (modal TIMER o st)) = [0; 1] ∧
  render_calls (fst (modal TIMER o st)) ≠ render_calls st.
Proof.
  intros st o. split_and!; [done|by vm_compute|by vm_compute|].
  intros Heq. apply (f_equal length) in Heq. vm_compute in Heq. discriminate.
Qed.

(** A timer event whose poll answers [False] starts the second render. *)
Lemma modal_renders_only_when_not_polled_running_witness :
  let st := started two_items EmptyString in
  let o := at_time 10 (Some false) in
  render_calls (fst (modal TIMER o st)) ≠ render_calls st ∧
  batch_render_cancelled (scene (bl st)) = false ∧
  _is_running (self st) = true.
Proof.
  intros st o.
  assert (Hne : render_calls (fst (modal TIMER o st)) ≠ render_calls st).
  { intros Heq. apply (f_equal length) in Heq. vm_compute in Heq.
    discriminate. }
  destruct (modal_renders_only_when_not_polled_running TIMER o st Hne)
    as (_ & _ & Hflag & Hrun).
  split_and!; [exact Hne|exact Hflag|exact Hrun].
Defined.

(** The first render call of a batch of two: only "Cube" is visible. *)
Lemma render_call_isolated_witness :
  let b := demo_blender two_items " p " in
  let actions := [tick 10 (Some false)] in
  snd (execute demo_fs (at_time 0 None) b) = RUNNING_MODAL ∧
  cube_call ∈ render_calls (fst (run actions (fst (execute demo_fs (at_time 0 None) b)))) ∧
  rc_visibility cube_call !! "Cube" = Some shown ∧
  dom (rc_visibility cube_call) = dom demo_objects.
Proof.
  intros b actions.
  assert (Hres : snd (execute demo_fs (at_time 0 None) b) = RUNNING_MODAL)
    by (vm_compute; reflexivity).
  assert (Hin : cube_call ∈ render_calls
                  (fst (run actions (fst (execute demo_fs (at_time 0 None) b))))).
  { vm_compute. apply list_elem_of_here. }
  destruct (render_call_isolated demo_fs (at_time 0 None) b actions cube_call
              Hres Hin) as (_ & Hshown & _ & Hdom).
  split_and!; [exact Hres|exact Hin|exact Hshown|exact Hdom].
Defined.

(** Cancel pressed while the first render is still running. *)
Lemma cancel_on_next_timer_witness :
  let b := demo_blender two_items EmptyString in
  let actions := [tick 10 (Some true)] in
  let st := fst (run actions (fst (execute demo_fs (at_time 0 None) b))) in
  let st' := fst (modal TIMER (at_time 20 (Some true)) (fst (cancel_batch st))) in
  snd (execute demo_fs (at_time 0 None) b) = RUNNING_MODAL ∧
  snd (run actions (fst (execute demo_fs (at_time 0 None) b))) = None ∧
  snd (modal TIMER (at_time 20 (Some true)) (fst (cancel_batch st))) = CANCELLED ∧
  data_objects (bl st') = demo_objects ∧
  batch_render_status (scene (bl st')) = "Cancelled by user".
Proof.
  intros b actions st st'.
  assert (Hres : snd (execute demo_fs (at_time 0 None) b) = RUNNING_MODAL)
    by (vm_compute; reflexivity).
  assert (Hmodal : snd (run actions (fst (execute demo_fs (at_time 0 None) b)))
                   = None) by (vm_compute; reflexivity).
  destruct (cancel_on_next_timer demo_fs (at_time 0 None)
              (at_time 20 (Some true)) b actions Hres Hmodal)
    as (_ & Hr & _ & Hobj & _ & Hstatus & _).
  split_and!; [exact Hres|exact Hmodal|exact Hr|exact Hobj|exact Hstatus].
Defined.

(** The output directory is missing and cannot be created. *)
Lemma execute_rejects_witness :
  let b := demo_blender two_items EmptyString in
  (fs_exists readonly_fs (abspath (batch_render_path (scene b))) = false ∧
   fs_makedirs readonly_fs (abspath (batch_render_path (scene b))) ≠ MkOk) ∧
  snd (execute readonly_fs (at_time 0 None) b) = CANCELLED ∧
  bl (fst (execute readonly_fs (at_time 0 None) b)) = b.
Proof.
  intros b.
  assert (Hdir :
    fs_exists readonly_fs (abspath (batch_render_path (scene b))) = false ∧
    fs_makedirs readonly_fs (abspath (batch_render_path (scene b))) ≠ MkOk)
    by (split; [reflexivity|discriminate]).
  destruct (execute_rejects readonly_fs (at_time 0 None) b) as (Hr & _ & Hb & _).
  { right. right. left. exact Hdir. }
  split; [exact Hdir|]. split; [exact Hr|exact Hb].
Defined.

(** The white space stripped from the prefix is that of [str.strip]: also a
    no-break space and an em space around the prefix are left out of the
    file name. *)
Lemma filepath_strips_unicode_white_space :
  (λ rc, rc_filepath rc) <$> render_calls (started two_items unicode_prefix)
  = ["/out/p_Cube_001.png"].
Proof. by vm_compute. Qed.

(** C7 as stated fails for a prefix with surrounding whitespace: with user
    prefix [" p "] the file of "Cube", first entry, is [p_Cube_001.png], not
    [ p _Cube_001.png]. *)
Lemma filepath_uses_stripped_prefix :
  let b := demo_blender two_items " p " in
  let st := started two_items " p " in
  batch_render_prefix (scene b) = " p " ∧
  (λ rc, (rc_index rc, rc_object rc, rc_filepath rc)) <$> render_calls st
    = [(0, "Cube", "/out/p_Cube_001.png")] ∧
  claimed_filepath b "Cube" 0 = "/out/ p _Cube_001.png" ∧
  "/out/p_Cube_001.png" ≠ claimed_filepath b "Cube" 0.
Proof. intros b st. by vm_compute. Qed.

(** The file of "Cube" as first entry, with user prefix [" p "]. *)
Lemma render_call_filepath_witness :
  let b := demo_blender two_items " p " in
  let actions := [tick 10 (Some false)] in
  snd (execute demo_fs (at_time 0 None) b) = RUNNING_MODAL ∧
  cube_call ∈ render_calls (fst (run actions (fst (execute demo_fs (at_time 0 None) b)))) ∧
  rc_filepath cube_call
  = path_join (abspath "/out") (("p" +:+ "_" +:+ clean_name "Cube" +:+ "_" +:+ "001") +:+ ".png").
Proof.
  intros b actions.
  assert (Hres : snd (execute demo_fs (at_time 0 None) b) = RUNNING_MODAL)
    by (vm_compute; reflexivity).
  assert (Hin : cube_call ∈ render_calls
                  (fst (run actions (fst (execute demo_fs (at_time 0 None) b))))).
  { vm_compute. apply list_elem_of_here. }
  destruct (render_call_filepath demo_fs (at_time 0 None) b actions cube_call
              Hres Hin) as (_ & Hfp).
  split_and!; [exact Hres|exact Hin|exact Hfp].
Defined.

(** C8 as stated fails when an entry is skipped: with an invalid first
    entry, after the first timer event no render has completed yet (the one
    of "Cube" is still running) and the progress shown is 50, not 0. *)
Lemma progress_counts_skipped_entry :
  let st := fst (modal TIMER (at_time 5 (Some true)) (started skip_first EmptyString)) in
  _is_running (self st) = true ∧
  rendered_indices st = [1] ∧
  completed_renders st = 0 ∧
  batch_render_progress (scene (bl st)) = inject_Z 50 ∧
  percent (completed_renders st) 2 = inject_Z 0 ∧
  batch_render_progress (scene (bl st)) ≠ percent (completed_renders st) 2.
Proof. intros st. by vm_compute. Qed.

(** Three entries, the middle one invalid: after the first render completes
    the index is 2 and the progress is [(2 / 3) * 100]. *)
Lemma progress_tracks_current_index_witness :
  let b := demo_blender mixed_items EmptyString in
  let st1 := fst (execute demo_fs (at_time 0 None) b) in
  let st := fst (modal TIMER (at_time 20 (Some false))
                   (fst (run [tick 10 (Some true)] st1))) in
  snd (execute demo_fs (at_time 0 None) b) = RUNNING_MODAL ∧
  _is_running (self st) = true ∧
  _current_index (self st) = 2 ∧
  batch_render_progress (scene (bl st)) = percent 2 3.
Proof.
  intros b st1 st.
  assert (Hres : snd (execute demo_fs (at_time 0 None) b) = RUNNING_MODAL)
    by (vm_compute; reflexivity).
  assert (Hrun : _is_running (self st) = true) by (vm_compute; reflexivity).
  destruct (progress_tracks_current_index demo_fs (at_time 0 None) b Hres)
    as (_ & Htick & _).
  destruct (Htick [tick 10 (Some true)] (at_time 20 (Some false)) Hrun)
    as (Hprog & _).
  split_and!; [exact Hres|exact Hrun|vm_compute; reflexivity|exact Hprog].
Defined.

(** A dot in a directory name: the file name is lost. *)
Lemma set_file_extension_cuts_at_last_dot_witness :
  contains_dot "2/frame" = false ∧
  endswith ("/renders/v1" +:+ "." +:+ "2/frame") (single_extension "PNG") = false ∧
  set_file_extension "PNG" "/renders/v1.2/frame" = "/renders/v1.png".
Proof.
  assert (Htail : contains_dot "2/frame" = false) by reflexivity.
  assert (Hends : endswith ("/renders/v1" +:+ "." +:+ "2/frame")
                    (single_extension "PNG") = false) by reflexivity.
  split; [exact Htail|]. split; [exact Hends|].
  exact (set_file_extension_cuts_at_last_dot "PNG" "/renders/v1" "2/frame"
           Htail Hends).
Defined.

(** Adding "Lamp" to a list of two different objects. *)
Lemma add_to_batch_no_duplicates_witness :
  NoDup (listed_objects two_items) ∧
  listed_objects (add_to_batch (Some "Lamp") two_items).1.1
  = ["Cube"; "Cone"; "Lamp"] ∧
  NoDup (listed_objects (add_to_batch (Some "Lamp") two_items).1.1).
Proof.
  assert (Hnodup : NoDup (listed_objects two_items)).
  { apply (bool_decide_unpack _). vm_compute. exact I. }
  destruct (add_to_batch_no_duplicates (Some "Lamp") two_items Hnodup)
    as [Hnodup' _].
  split; [exact Hnodup|]. split; [reflexivity|exact Hnodup'].
Defined.

(** "Lamp" added to and removed from a list of two. *)
Lemma add_then_remove_last_witness :
  ("Lamp" ∉ listed_objects two_items) ∧
  (remove_from_batch (add_to_batch (Some "Lamp") two_items).1.1
     (Z.of_nat (length two_items))).1 = two_items.
Proof.
  assert (Hnot : "Lamp" ∉ listed_objects two_items).
  { apply (bool_decide_unpack _). vm_compute. exact I. }
  destruct (add_then_remove_last "Lamp" two_items Hnot) as [_ Hback].
  split; [exact Hnot|exact Hback].
Defined.

(** Removing the middle one of three entries. *)
Lemma remove_from_batch_entries_witness :
  (0 ≤ 1 < Z.of_nat (length mixed_items))%Z ∧
  (remove_from_batch mixed_items 1).2 = 0%Z ∧
  (remove_from_batch mixed_items 1).1 !! 1 = mixed_items !! 2.
Proof.
  assert (Hin : (0 ≤ 1 < Z.of_nat (length mixed_items))%Z) by (simpl; lia).
  destruct (remove_from_batch_entries mixed_items 1 Hin)
    as (_ & Hafter & Hsel & _).
  split; [exact Hin|]. split.
  - destruct Hsel as [Hindex _]; [simpl; lia|exact Hindex].
  - apply Hafter. simpl. lia.
Defined.

(** "Cube" rendered alone with "Auto Restore" on. *)
Lemma single_object_restore_round_trip_witness :
  let sc := demo_scene [] EmptyString in
  let out := single_object_execute (Some "Cube") false demo_objects sc in
  single_render_restore sc = true ∧
  so_objects out !! "Cone" = Some hidden ∧
  so_filepath out = "/tmp/frame.png" ∧
  ∃ visibility_states,
    so_timer out = Some visibility_states ∧
    restore_settings visibility_states (so_objects out) = demo_objects.
Proof.
  intros sc out.
  assert (Hrestore : single_render_restore sc = true) by reflexivity.
  destruct (single_object_restore_round_trip "Cube" demo_objects sc Hrestore)
    as [_ Hback].
  split; [exact Hrestore|]. split; [vm_compute; reflexivity|].
  split; [vm_compute; reflexivity|exact Hback].
Defined.

(** "Cone" is deleted before the timer fires. *)
Lemma single_object_restore_after_delete_witness :
  let sc := demo_scene [] EmptyString in
  let out := single_object_execute (Some "Cube") false demo_objects sc in
  single_render_restore sc = true ∧
  ∃ visibility_states,
    so_timer out = Some visibility_states ∧
    restore_settings visibility_states (delete "Cone" (so_objects out))
    = delete "Cone" demo_objects.
Proof.
  intros sc out.
  assert (Hrestore : single_render_restore sc = true) by reflexivity.
  split; [exact Hrestore|].
  exact (single_object_restore_after_delete "Cube" "Cone" demo_objects sc
           Hrestore).
Defined.

(** The list ["Cube"; gone]: two idle timer events end the batch, the
    operator stays modal. *)
Lemma last_entry_invalid_stays_modal_witness :
  let b := demo_blender last_invalid EmptyString in
  let actions := [tick 10 (Some false); tick 20 (Some false)] in
  snd (execute demo_fs (at_time 0 None) b) = RUNNING_MODAL ∧
  valid_entry b (length (batch_render_objects (scene b)) - 1) = false ∧
  Forall (λ a, is_deliver a = true) actions ∧
  snd (run actions (fst (execute demo_fs (at_time 0 None) b))) = None ∧
  _is_running (self (fst (run actions (fst (execute demo_fs (at_time 0 None) b)))))
    = false.
Proof.
  intros b actions.
  assert (Hres : snd (execute demo_fs (at_time 0 None) b) = RUNNING_MODAL)
    by (vm_compute; reflexivity).
  assert (Hlast : valid_entry b (length (batch_render_objects (scene b)) - 1)
                  = false) by (vm_compute; reflexivity).
  assert (Hacts : Forall (λ a, is_deliver a = true) actions)
    by (repeat constructor).
  destruct (last_entry_invalid_stays_modal demo_fs (at_time 0 None) b actions
              Hres Hlast Hacts) as [Hmodal Hdone].
  destruct Hdone as [Hstop _]; [repeat constructor|simpl; lia|].
  split_and!; [exact Hres|exact Hlast|exact Hacts|exact Hmodal|exact Hstop].
Defined.

(** A list without any valid entry. *)
Lemma execute_all_invalid_witness :
  let b := demo_blender none_valid EmptyString in
  snd (execute demo_fs (at_time 0 None) b) = RUNNING_MODAL ∧
  (∀ i, valid_entry b i = false) ∧
  render_calls (fst (execute demo_fs (at_time 0 None) b)) = [] ∧
  _is_running (self (fst (execute demo_fs (at_time 0 None) b))) = false.
Proof.
  intros b.
  assert (Hres : snd (execute demo_fs (at_time 0 None) b) = RUNNING_MODAL)
    by (vm_compute; reflexivity).
  assert (Hinvalid : ∀ i, valid_entry b i = false).
  { intros [|[|i]]; reflexivity. }
  destruct (execute_all_invalid demo_fs (at_time 0 None) b Hres Hinvalid)
    as (Hcalls & Hstop & _).
  split_and!; [exact Hres|exact Hinvalid|exact Hcalls|exact Hstop].
Defined.

(** Three entries, one of them invalid: two renders, "3 objects rendered". *)
Lemma completion_status_counts_list_witness :
  let b := demo_blender mixed_items EmptyString in
  let actions := [tick 10 (Some false); tick 20 (Some false)] in
  let st := fst (run actions (fst (execute demo_fs (at_time 0 None) b))) in
  snd (execute demo_fs (at_time 0 None) b) = RUNNING_MODAL ∧
  Forall (λ a, is_deliver a = true) actions ∧
  _is_running (self st) = false ∧
  length (render_calls st) = 2 ∧
  batch_render_status (scene (bl st)) = completed_status 3.
Proof.
  intros b actions st.
  assert (Hres : snd (execute demo_fs (at_time 0 None) b) = RUNNING_MODAL)
    by (vm_compute; reflexivity).
  assert (Hacts : Forall (λ a, is_deliver a = true) actions)
    by (repeat constructor).
  assert (Hstop : _is_running (self st) = false) by (vm_compute; reflexivity).
  destruct (completion_status_counts_list demo_fs (at_time 0 None) b actions
              Hres Hacts Hstop) as (Hstatus & _ & _).
  split_and!; [exact Hres|exact Hacts|exact Hstop|vm_compute; reflexivity|
               exact Hstatus].
Defined.

(** Two objects of the same name at indices 0 and 1. *)
Lemma batch_filenames_distinct_witness :
  0 ≠ 1 ∧
  (batch_filename "p" "Cube" 0 +:+ ".png")
  ≠ (batch_filename "p" "Cube" 1 +:+ ".png").
Proof.
  assert (Hne : 0 ≠ 1) by discriminate.
  split; [exact Hne|].
  exact (batch_filenames_distinct "p" "Cube" "Cube" ".png" 0 1 Hne).
Defined.

(** A timer event while the first render is running. *)
Lemma modal_while_rendering_witness :
  let st := started two_items EmptyString in
  let o := at_time 10 (Some true) in
  job_running o = Some true ∧
  batch_render_cancelled (scene (bl st)) = false ∧
  snd (modal TIMER o st) = PASS_THROUGH ∧
  render_calls (fst (modal TIMER o st)) = render_calls st.
Proof.
  intros st o.
  assert (Hpoll : job_running o = Some true) by reflexivity.
  assert (Hflag : batch_render_cancelled (scene (bl st)) = false)
    by (vm_compute; reflexivity).
  destruct (modal_while_rendering o st Hpoll Hflag)
    as (Hr & _ & _ & _ & _ & _ & _ & _ & _ & Hcalls & _).
  split_and!; [exact Hpoll|exact Hflag|exact Hr|exact Hcalls].
Defined.

(** A batch started with the cancel flag still set. *)
Lemma execute_clears_cancel_request_witness :
  batch_render_cancelled (scene cancel_requested) = true ∧
  snd (execute demo_fs (at_time 0 None) cancel_requested) = RUNNING_MODAL ∧
  batch_render_cancelled
    (scene (bl (fst (execute demo_fs (at_time 0 None) cancel_requested))))
  = false.
Proof.
  assert (Hres : snd (execute demo_fs (at_time 0 None) cancel_requested)
                 = RUNNING_MODAL) by (vm_compute; reflexivity).
  destruct (execute_clears_cancel_request demo_fs (at_time 0 None)
              (at_time 10 None) cancel_requested Hres) as [Hflag _].
  split; [reflexivity|]. split; [exact Hres|exact Hflag].
Defined.

(** After the first render of three entries, the middle one invalid: the
    scene shows "Cone", entry 2. *)
Lemma running_batch_shows_current_entry_witness :
  let b := demo_blender mixed_items EmptyString in
  let actions := [tick 10 (Some false)] in
  let st := fst (run actions (fst (execute demo_fs (at_time 0 None) b))) in
  snd (execute demo_fs (at_time 0 None) b) = RUNNING_MODAL ∧
  _is_running (self st) = true ∧
  _current_index (self st) = 2 ∧
  ∃ name,
    batch_render_objects (scene b) !! _current_index (self st)
      = Some (Some name) ∧
    batch_render_current_object (scene (bl st)) = name ∧
    render_filepath (scene (bl st))
      = expected_filepath b name (_current_index (self st)).
Proof.
  intros b actions st.
  assert (Hres : snd (execute demo_fs (at_time 0 None) b) = RUNNING_MODAL)
    by (vm_compute; reflexivity).
  assert (Hrun : _is_running (self st) = true) by (vm_compute; reflexivity).
  split_and!; [exact Hres|exact Hrun|vm_compute; reflexivity|].
  exact (running_batch_shows_current_entry demo_fs (at_time 0 None) b actions
           Hres Hrun).
Defined.
